(** * KahootQuizClone: the game engine of [backend/internal/service]

    A shallow embedding of the Go service package (game.go and net.go):
    the Game state machine with its countdown goroutine, the scoring and the
    leaderboard, the packet codec and the NetService router.

    Modelling conventions.
    - Go's [int] is a 64-bit two's complement integer: it is a [Z] and every
      arithmetic operation of the source goes through [wrap64].
    - A websocket connection is an opaque handle compared by identity: a
      [nat]. UUIDs are [nat]s too; the fresh values the code draws from
      [uuid.New] and [rand] are inputs of the step that draws them.
    - The methods of [*Game] run in a state monad over the Game that also
      records the packets sent (destination connection, packet) and can
      panic (a Go runtime panic: slice index out of range), keeping the state
      and the packets sent up to the panic.
    - [NetService.SendPacket] is a method of the monad that records the
      packet it is called with and returns its error as a boolean: whether
      [connection.WriteMessage] fails is an input of the step, a
      [WriteFails] oracle that sees the packets the step has sent before
      and the packet being written. Every packet the game hands to
      [SendPacket] has an encoding tag, so [PacketToBytes] never fails
      there. The list of packets sent is the list of [SendPacket] calls,
      in order, whether the write then fails or not.
    - A Go [any] holding a packet holds either the struct value or a
      pointer to it ([Any]); the codec distinguishes the two as the
      source's type switches do. *)

From Stdlib Require Import ZArith List String Ascii Bool Lia Init.Byte.
From Stdlib Require Import Sorting.Permutation Sorting.Sorted.
From Stdlib Require Strings.Byte.
Import ListNotations.
Open Scope Z_scope.

(** ** Go [int] *)

Definition int_modulus : Z := 2 ^ 64.

(** Two's complement wrap-around of a 64-bit [int]. *)
Definition wrap64 (z : Z) : Z := (z + 2 ^ 63) mod int_modulus - 2 ^ 63.

Definition in_int64 (z : Z) : Prop := - 2 ^ 63 <= z < 2 ^ 63.

(** ** entity package *)

Module QuizChoice.
Record t := mk { Id : string; Name : string; Correct : bool }.
End QuizChoice.

Module QuizQuestion.
Record t := mk { Id : string; Name : string; Time : Z;
                 Choices : list QuizChoice.t }.
End QuizQuestion.

Module Quiz.
Record t := mk { Id : string; Name : string;
                 Questions : list QuizQuestion.t }.
End Quiz.

(** ** service package: players, states, games *)

Definition Conn := nat.

Module Player.
Record t := mk {
    Id : nat;
    Name : string;
    Connection : Conn;
    Points : Z;
    LastAwardedPoints : Z;
    Answered : bool }.

Definition set_Points (p : t) (v : Z) : t :=
    mk (Id p) (Name p) (Connection p) v (LastAwardedPoints p) (Answered p).
Definition set_LastAwardedPoints (p : t) (v : Z) : t :=
    mk (Id p) (Name p) (Connection p) (Points p) v (Answered p).
Definition set_Answered (p : t) (v : bool) : t :=
    mk (Id p) (Name p) (Connection p) (Points p) (LastAwardedPoints p) v.
End Player.

Inductive GameState :=
| LobbyState
| PlayState
| IntermissionState
| RevealState
| EndState.

Definition GameState_eqb (a b : GameState) : bool :=
  match a, b with
  | LobbyState, LobbyState | PlayState, PlayState
  | IntermissionState, IntermissionState | RevealState, RevealState
  | EndState, EndState => true
  | _, _ => false
  end.

Module LeaderboardEntry.
Record t := mk { Name : string; Points : Z }.
End LeaderboardEntry.

Module Game.
Record t := mk {
    Id : nat;
    Quiz : Quiz.t;
    CurrentQuestion : Z;
    Code : string;
    State : GameState;
    Ended : bool;
    Time : Z;
    Players : list Player.t;
    Host : Conn }.

Definition set_CurrentQuestion (g : t) (v : Z) : t :=
    mk (Id g) (Quiz g) v (Code g) (State g) (Ended g) (Time g) (Players g) (Host g).
Definition set_State (g : t) (v : GameState) : t :=
    mk (Id g) (Quiz g) (CurrentQuestion g) (Code g) v (Ended g) (Time g) (Players g) (Host g).
Definition set_Ended (g : t) (v : bool) : t :=
    mk (Id g) (Quiz g) (CurrentQuestion g) (Code g) (State g) v (Time g) (Players g) (Host g).
Definition set_Time (g : t) (v : Z) : t :=
    mk (Id g) (Quiz g) (CurrentQuestion g) (Code g) (State g) (Ended g) v (Players g) (Host g).
Definition set_Players (g : t) (v : list Player.t) : t :=
    mk (Id g) (Quiz g) (CurrentQuestion g) (Code g) (State g) (Ended g) (Time g) v (Host g).
End Game.

(** ** Packets (net.go): the closed catalogue behind the [any]s *)

Inductive Packet :=
| ConnectPacket (Code : string) (Name : string)
| HostGamePacket (QuizId : string)
| QuestionShowPacket (Question : QuizQuestion.t)
| ChangeGameStatePacket (State : GameState)
| PlayerJoinPacket (Player : Player.t)
| PlayerDisconnectPacket (PlayerId : nat)
| StartGamePacket
| TickPacket (Tick : Z)
| QuestionAnswerPacket (Question : Z)
| PlayerRevealPacket (Points : Z)
| LeaderboardPacket (Points : list LeaderboardEntry.t).

(** A Go [any] holding a packet: the struct value, or a pointer to it. *)
Inductive Any :=
| Val (p : Packet)
| Ptr (p : Packet).

Definition any_packet (a : Any) : Packet := match a with Val p | Ptr p => p end.

(** A packet sent: destination connection and packet. *)
Definition Out : Type := (Conn * Packet)%type.

(** Whether [connection.WriteMessage] fails, given the packets sent before
    in the same step and the packet being written. *)
Definition WriteFails : Type := list Out -> Out -> bool.

(** ** The method monad: state over the Game, packets sent, panics *)

Inductive res (A : Type) :=
| Ret (a : A) (g : Game.t) (out : list Out)
| Panic (g : Game.t) (out : list Out).
Arguments Ret {A}.
Arguments Panic {A}.

Definition GM (A : Type) : Type := Game.t -> list Out -> res A.

Definition ret {A} (a : A) : GM A := fun g o => Ret a g o.
Definition bind {A B} (m : GM A) (k : A -> GM B) : GM B :=
  fun g o => match m g o with
             | Ret a g' o' => k a g' o'
             | Panic g' o' => Panic g' o'
             end.
Notation "x <- m ;; k" := (bind m (fun x => k))
  (at level 61, m at next level, right associativity).
Notation "m ;; k" := (bind m (fun _ => k)) (at level 61, right associativity).

Definition get : GM Game.t := fun g o => Ret g g o.
Definition modify (f : Game.t -> Game.t) : GM unit := fun g o => Ret tt (f g) o.
(** A Go runtime panic (index out of range). *)
Definition panic {A} : GM A := fun g o => Panic g o.

(** Go slice indexing [s[i]] with an [int] index: panics out of range. *)
Definition index {A} (s : list A) (i : Z) : option A :=
  if i <? 0 then None else nth_error s (Z.to_nat i).

(** Replace the element at position [i] (a Go pointer write through
    [g.Players[i]]). *)
Fixpoint update_nth {A} (i : nat) (f : A -> A) (l : list A) : list A :=
  match l, i with
  | [], _ => []
  | x :: l', O => f x :: l'
  | x :: l', S i' => x :: update_nth i' f l'
  end.

Definition modify_player (i : nat) (f : Player.t -> Player.t) : GM unit :=
  modify (fun g => Game.set_Players g (update_nth i f (Game.Players g))).

(** ** game.go *)

(** [newGame]: [uuid.New()] and [generateCode()] are the inputs [id], [code]. *)
Definition newGame (id : nat) (code : string) (quiz : Quiz.t) (host : Conn) : Game.t :=
  Game.mk id quiz (-1) code LobbyState false 60 [] host.


(** [strconv.Itoa]: one decimal digit, and the digits most significant first. *)
Definition digit_char (n : Z) : ascii := ascii_of_nat (48 + Z.to_nat (n mod 10)).

Fixpoint itoa_digits (fuel : nat) (n : Z) (acc : string) : string :=
  match fuel with
  | O => acc
  | S f =>
      let acc := String (digit_char n) acc in
      if n / 10 =? 0 then acc else itoa_digits f (n / 10) acc
  end.

Definition Itoa (n : Z) : string :=
  if n <? 0 then String "-" (itoa_digits 64 (- n) EmptyString)
  else itoa_digits 64 n EmptyString.

(** [generateCode]: [r] is the value drawn by [rand.Intn(900000)]. *)
Definition generateCode (r : Z) : string := Itoa (100000 + r).

(** The countdown goroutine started by [Start]: where its loop stands.
    [TimerAtCheck] is before the [if g.Ended] test, [TimerAtTick] between
    that test and the call [g.Tick()] (the [time.Sleep] is folded into the
    step back to [TimerAtCheck]). *)
Inductive Timer := TimerOff | TimerAtCheck | TimerAtTick | TimerDone.

(** The leaderboard is sorted by [sort.Slice]; its implementation in Go's
    library is [pdqsort_func] (modelled below); the methods take it as a
    parameter [sort_slice] (comparator on elements, as [less(i, j)] of
    [sort.Slice] compares [g.Players[i]] and [g.Players[j]]); they also
    take the [WriteFails] oracle of the step. *)
Section Methods.
Context (sort_slice : forall A : Type, (A -> A -> bool) -> list A -> list A).
Context (write_fails : WriteFails).

(** [g.netService.SendPacket]: [true] is a non-nil error. *)
Definition SendPacket (connection : Conn) (packet : Packet) : GM bool :=
  fun g o => Ret (write_fails o (connection, packet)) g (o ++ [(connection, packet)]).

(** A [SendPacket] call whose error the caller drops. *)
Definition send (c : Conn) (p : Packet) : GM unit :=
  SendPacket c p ;; ret tt.

(** Send one packet per element of a list, in order. *)
Fixpoint send_all (l : list Out) : GM unit :=
  match l with
  | [] => ret tt
  | (c, p) :: l' => send c p ;; send_all l'
  end.

(** The loop of [BroadcastPacket] over [g.Players]: [return err] at the
    first failed send. *)
Fixpoint broadcast_players (players : list Player.t) (packet : Packet) : GM bool :=
  match players with
  | [] => ret false
  | player :: players' =>
      err <- SendPacket (Player.Connection player) packet ;;
      if err then ret true else broadcast_players players' packet
  end.

Definition BroadcastPacket (packet : Packet) (includeHost : bool) : GM bool :=
  g <- get ;;
  err <- broadcast_players (Game.Players g) packet ;;
  if err then ret true
  else if includeHost then SendPacket (Game.Host g) packet
  else ret false.

Definition ChangeState (state : GameState) : GM unit :=
  modify (fun g => Game.set_State g state) ;;
  BroadcastPacket (ChangeGameStatePacket state) true ;;
  ret tt.

Definition ResetPlayerAnswerStates : GM unit :=
  modify (fun g => Game.set_Players g
    (map (fun player => Player.set_Answered player false) (Game.Players g))).

Definition End : GM unit :=
  modify (fun g => Game.set_Ended g true) ;;
  ChangeState EndState.

Definition getCurrentQuestion : GM QuizQuestion.t :=
  g <- get ;;
  match index (Quiz.Questions (Game.Quiz g)) (Game.CurrentQuestion g) with
  | Some q => ret q
  | None => panic
  end.

Definition NextQuestion : GM unit :=
  modify (fun g => Game.set_CurrentQuestion g (wrap64 (Game.CurrentQuestion g + 1))) ;;
  g <- get ;;
  if Z.of_nat (List.length (Quiz.Questions (Game.Quiz g))) <=? Game.CurrentQuestion g
  then End
  else
    ResetPlayerAnswerStates ;;
    ChangeState PlayState ;;
    currentQuestion <- getCurrentQuestion ;;
    modify (fun g => Game.set_Time g (QuizQuestion.Time currentQuestion)) ;;
    g <- get ;;
    send (Game.Host g) (QuestionShowPacket currentQuestion).

(** [Start]; the [go func() {...}] it spawns is not part of the Game
    state: [StartOrSkip] below returns [true] when it spawned it. *)
Definition Start : GM unit :=
  ChangeState PlayState ;;
  NextQuestion.

Definition StartOrSkip : GM bool :=
  g <- get ;;
  match Game.State g with
  | LobbyState => Start ;; ret true
  | _ => NextQuestion ;; ret false
  end.

Definition Reveal : GM unit :=
  modify (fun g => Game.set_Time g 5) ;;
  modify (fun g => Game.set_Players g
    (map (fun player => if Player.Answered player then player
                        else Player.set_LastAwardedPoints player 0) (Game.Players g))) ;;
  g <- get ;;
  send_all (map (fun player => (Player.Connection player,
                                PlayerRevealPacket (Player.LastAwardedPoints player)))
                (Game.Players g)) ;;
  ChangeState RevealState.

(** [getLeaderboard] sorts [g.Players] in place. *)
Definition getLeaderboard : GM (list LeaderboardEntry.t) :=
  g <- get ;;
  let players := sort_slice Player.t
                   (fun a b => Player.Points b <? Player.Points a) (Game.Players g) in
  modify (fun g => Game.set_Players g players) ;;
  ret (map (fun player => LeaderboardEntry.mk (Player.Name player) (Player.Points player))
           (firstn (Nat.min 3 (List.length players)) players)).

Definition Intermission : GM unit :=
  modify (fun g => Game.set_Time g 30) ;;
  ChangeState IntermissionState ;;
  leaderboard <- getLeaderboard ;;
  g <- get ;;
  send (Game.Host g) (LeaderboardPacket leaderboard).

Definition Tick : GM unit :=
  modify (fun g => Game.set_Time g (wrap64 (Game.Time g - 1))) ;;
  g <- get ;;
  send (Game.Host g) (TickPacket (Game.Time g)) ;;
  if Game.Time g =? 0 then
    match Game.State g with
    | PlayState => Reveal
    | RevealState => Intermission
    | IntermissionState => NextQuestion
    | _ => ret tt
    end
  else ret tt.

(** [OnPlayerJoin]: [uuid.New()] is the input [id]. *)
Definition OnPlayerJoin (id : nat) (name : string) (connection : Conn) : GM unit :=
  let player := Player.mk id name connection 0 0 false in
  modify (fun g => Game.set_Players g (Game.Players g ++ [player])) ;;
  g <- get ;;
  send connection (ChangeGameStatePacket (Game.State g)) ;;
  send (Game.Host g) (PlayerJoinPacket player).

Definition OnPlayerDisconnect (player : Player.t) : GM unit :=
  modify (fun g => Game.set_Players g
    (filter (fun p => negb (Nat.eqb (Player.Id p) (Player.Id player))) (Game.Players g))) ;;
  g <- get ;;
  send (Game.Host g) (PlayerDisconnectPacket (Player.Id player)).

Definition getAnsweredPlayers (g : Game.t) : list Player.t :=
  filter Player.Answered (Game.Players g).

Definition isCorrectChoice (choiceIndex : Z) : GM bool :=
  q <- getCurrentQuestion ;;
  let choices := QuizQuestion.Choices q in
  if (choiceIndex <? 0) || (Z.of_nat (List.length choices) <=? choiceIndex) then ret false
  else match index choices choiceIndex with
       | Some c => ret (QuizChoice.Correct c)
       | None => panic
       end.

(** [orderReward] is computed in [float64]: [answered] and the result are
    small integers, exact in a double, so the float arithmetic is exact. *)
Definition getPointsReward : GM Z :=
  g <- get ;;
  let answered := Z.of_nat (List.length (getAnsweredPlayers g)) in
  let orderReward := 5000 - 1000 * Z.min 4 answered in
  let timeReward := wrap64 (Game.Time g * (1000 / 60)) in
  ret (wrap64 (orderReward + timeReward)).

(** [OnPlayerAnswer choice player]: the [*Player] is the element at
    position [pi] of [g.Players] ([getGameByPlayer] finds it there). *)
Definition OnPlayerAnswer (choice : Z) (pi : nat) : GM unit :=
  correct <- isCorrectChoice choice ;;
  (if correct then
     reward <- getPointsReward ;;
     modify_player pi (fun p => Player.set_LastAwardedPoints p reward) ;;
     modify_player pi (fun p => Player.set_Points p
                                  (wrap64 (Player.Points p + Player.LastAwardedPoints p)))
   else modify_player pi (fun p => Player.set_LastAwardedPoints p 0)) ;;
  modify_player pi (fun p => Player.set_Answered p true) ;;
  g <- get ;;
  if Nat.eqb (List.length (getAnsweredPlayers g)) (List.length (Game.Players g)) then Reveal
  else ret tt.

End Methods.

(** ** Go's [sort.Slice] (sort/slice.go, sort/zsortfunc.go, Go >= 1.19)

    [sort.Slice(x, less)] runs [pdqsort_func(lessSwap{less, swap}, 0, n,
    bits.Len(uint(n)))]. The slice is [data]; [less i j] compares the
    current elements at [i] and [j]; indices are [nat]s (they stay in
    [0, n] in every loop of the source). The loops of the source are
    written with an explicit bound ([fuel]) large enough never to run out:
    each iteration moves an index inside [0, n]. *)
Module GoSort.
Section Pdq.
Context {A : Type} (lt : A -> A -> bool).

Definition less (data : list A) (i j : nat) : bool :=
  match nth_error data i, nth_error data j with
  | Some x, Some y => lt x y
  | _, _ => false
  end.

Fixpoint set_nth (i : nat) (v : A) (l : list A) : list A :=
  match l, i with
  | [], _ => []
  | _ :: l', O => v :: l'
  | x :: l', S i' => x :: set_nth i' v l'
  end.

Definition swap (data : list A) (i j : nat) : list A :=
  match nth_error data i, nth_error data j with
  | Some x, Some y => set_nth j x (set_nth i y data)
  | _, _ => data
  end.

(** [for i <= j && p(i) { i++ }] *)
Fixpoint scan_up (fuel : nat) (p : nat -> bool) (i j : nat) : nat :=
  match fuel with
  | O => i
  | S f => if (i <=? j)%nat && p i then scan_up f p (S i) j else i
  end.

(** [for i <= j && p(j) { j-- }] *)
Fixpoint scan_down (fuel : nat) (p : nat -> bool) (i j : nat) : nat :=
  match fuel with
  | O => j
  | S f => if (i <=? j)%nat && p j then scan_down f p i (j - 1) else j
  end.

(** insertionSort_func: [for j := i; j > a && less(j, j-1); j-- { swap(j, j-1) }] *)
Fixpoint insertion_inner (a j : nat) (data : list A) : list A :=
  match j with
  | O => data
  | S j' => if (a <? j)%nat && less data j j'
            then insertion_inner a j' (swap data j j') else data
  end.

(** [for i := a + 1; i < b; i++ { ... }], [n] iterations left. *)
Fixpoint insertion_outer (a i n : nat) (data : list A) : list A :=
  match n with
  | O => data
  | S n' => insertion_outer a (S i) n' (insertion_inner a i data)
  end.

Definition insertionSort_func (data : list A) (a b : nat) : list A :=
  insertion_outer a (S a) (b - S a) data.

(** siftDown_func *)
Fixpoint siftDown_func (fuel : nat) (data : list A) (root hi first : nat) : list A :=
  match fuel with
  | O => data
  | S f =>
      let child := (2 * root + 1)%nat in
      if (hi <=? child)%nat then data
      else
        let child := if (S child <? hi)%nat && less data (first + child) (first + S child)
                     then S child else child in
        if negb (less data (first + root) (first + child)) then data
        else siftDown_func f (swap data (first + root) (first + child)) child hi first
  end.

(** [for i := k; i >= 0; i-- { body(i) }] *)
Fixpoint down_from (body : nat -> list A -> list A) (i : nat) (data : list A) : list A :=
  match i with
  | O => body O data
  | S i' => down_from body i' (body i data)
  end.

Definition heapSort_func (data : list A) (a b : nat) : list A :=
  let first := a in
  let lo := O in
  let hi := (b - a)%nat in
  let fuel := S hi in
  let data := down_from (fun i d => siftDown_func fuel d i hi first) ((hi - 1) / 2) data in
  match hi with
  | O => data
  | S hi' => down_from (fun i d => siftDown_func fuel (swap d first (first + i)) lo i first)
                       hi' data
  end.

(** xorshift (uint64) and nextPowerOfTwo *)
Definition bits_Len (x : Z) : Z := if x <=? 0 then 0 else Z.log2 x + 1.

Definition u64 (z : Z) : Z := z mod 2 ^ 64.

Definition xorshift_Next (r : Z) : Z :=
  let r := Z.lxor r (u64 (Z.shiftl r 13)) in
  let r := Z.lxor r (Z.shiftr r 7) in
  let r := Z.lxor r (u64 (Z.shiftl r 17)) in
  r.

Definition nextPowerOfTwo (length : nat) : Z := Z.shiftl 1 (bits_Len (Z.of_nat length)).

Fixpoint breakPatterns_loop (a length idx i n : nat) (random modulus : Z)
         (data : list A) : list A :=
  match n with
  | O => data
  | S n' =>
      let random := xorshift_Next random in
      let other := Z.to_nat (Z.land random (modulus - 1)) in
      let other := if (length <=? other)%nat then (other - length)%nat else other in
      breakPatterns_loop a length idx (S i) n' random modulus
        (swap data (idx - 1 + i) (a + other))
  end.

Definition breakPatterns_func (data : list A) (a b : nat) : list A :=
  let length := (b - a)%nat in
  if (8 <=? length)%nat then
    let random := Z.of_nat length in
    let modulus := nextPowerOfTwo length in
    let idx := (a + (length / 4) * 2 - 1)%nat in
    breakPatterns_loop a length idx O 3 random modulus data
  else data.

Inductive sortedHint := unknownHint | increasingHint | decreasingHint.

(** order2_func, median_func, medianAdjacent_func: [swaps] is threaded. *)
Definition order2_func (data : list A) (a b swaps : nat) : nat * nat * nat :=
  if less data b a then (b, a, S swaps) else (a, b, swaps).

Definition median_func (data : list A) (a b c swaps : nat) : nat * nat :=
  let '(a, b, swaps) := order2_func data a b swaps in
  let '(b, c, swaps) := order2_func data b c swaps in
  let '(a, b, swaps) := order2_func data a b swaps in
  (b, swaps).

Definition medianAdjacent_func (data : list A) (a swaps : nat) : nat * nat :=
  median_func data (a - 1) a (S a) swaps.

Definition choosePivot_func (data : list A) (a b : nat) : nat * sortedHint :=
  let l := (b - a)%nat in
  let i := (a + l / 4 * 1)%nat in
  let j := (a + l / 4 * 2)%nat in
  let k := (a + l / 4 * 3)%nat in
  let '(j, swaps) :=
    if (8 <=? l)%nat then
      let '(i, j, k, swaps) :=
        if (50 <=? l)%nat then
          let '(i, s) := medianAdjacent_func data i O in
          let '(j, s) := medianAdjacent_func data j s in
          let '(k, s) := medianAdjacent_func data k s in
          (i, j, k, s)
        else (i, j, k, O) in
      median_func data i j k swaps
    else (j, O) in
  match swaps with
  | O => (j, increasingHint)
  | 12%nat => (j, decreasingHint)
  | _ => (j, unknownHint)
  end.

Fixpoint reverse_loop (fuel : nat) (data : list A) (i j : nat) : list A :=
  match fuel with
  | O => data
  | S f => if (i <? j)%nat then reverse_loop f (swap data i j) (S i) (j - 1) else data
  end.

Definition reverseRange_func (data : list A) (a b : nat) : list A :=
  reverse_loop (List.length data) data a (b - 1).

(** partialInsertionSort_func: the two shifting loops and the outer loop
    of at most [maxSteps = 5] steps; [i] is shared by the iterations. *)
Fixpoint shift_smaller_left (j : nat) (data : list A) : list A :=
  match j with
  | O => data
  | S j' => if less data j j' then shift_smaller_left j' (swap data j j') else data
  end.

Fixpoint shift_greater_right (fuel : nat) (j b : nat) (data : list A) : list A :=
  match fuel with
  | O => data
  | S f => if (j <? b)%nat && less data j (j - 1)
           then shift_greater_right f (S j) b (swap data j (j - 1)) else data
  end.

Fixpoint partial_steps (steps : nat) (a b i : nat) (data : list A) : bool * list A :=
  match steps with
  | O => (false, data)
  | S s =>
      let fuel := S (List.length data) in
      let i := scan_up fuel (fun i => negb (less data i (i - 1))) i (b - 1) in
      if (i =? b)%nat then (true, data)
      else if (b - a <? 50)%nat then (false, data)
      else
        let data := swap data i (i - 1) in
        let data := if (2 <=? i - a)%nat then shift_smaller_left (i - 1) data else data in
        let data := if (2 <=? b - i)%nat then shift_greater_right fuel (S i) b data else data in
        partial_steps s a b i data
  end.

Definition partialInsertionSort_func (data : list A) (a b : nat) : bool * list A :=
  partial_steps 5 a b (S a) data.

(** partition_func: returns the slice, [newpivot] and [alreadyPartitioned]. *)
Fixpoint partition_loop (fuel : nat) (a : nat) (data : list A) (i j : nat) : list A * nat :=
  match fuel with
  | O => (data, j)
  | S f =>
      let n := S (List.length data) in
      let i := scan_up n (fun i => less data i a) i j in
      let j := scan_down n (fun j => negb (less data j a)) i j in
      if (j <? i)%nat then (data, j)
      else partition_loop f a (swap data i j) (S i) (j - 1)
  end.

Definition partition_func (data : list A) (a b pivot : nat) : list A * nat * bool :=
  let data := swap data a pivot in
  let n := S (List.length data) in
  let i := S a in
  let j := (b - 1)%nat in
  let i := scan_up n (fun i => less data i a) i j in
  let j := scan_down n (fun j => negb (less data j a)) i j in
  if (j <? i)%nat then (swap data j a, j, true)
  else
    let '(data, j) := partition_loop n a (swap data i j) (S i) (j - 1) in
    (swap data j a, j, false).

(** partitionEqual_func: returns the slice and [newpivot]. *)
Fixpoint partitionEqual_loop (fuel : nat) (a : nat) (data : list A) (i j : nat) : list A * nat :=
  match fuel with
  | O => (data, i)
  | S f =>
      let n := S (List.length data) in
      let i := scan_up n (fun i => negb (less data a i)) i j in
      let j := scan_down n (fun j => less data a j) i j in
      if (j <? i)%nat then (data, i)
      else partitionEqual_loop f a (swap data i j) (S i) (j - 1)
  end.

Definition partitionEqual_func (data : list A) (a b pivot : nat) : list A * nat :=
  let data := swap data a pivot in
  partitionEqual_loop (S (List.length data)) a data (S a) (b - 1).

(** pdqsort_func; the [for] loop's [continue]s and the tail of each
    iteration are the recursive calls with the loop variables
    [a], [b], [limit], [wasBalanced], [wasPartitioned]. *)
Fixpoint pdqsort_func (fuel : nat) (data : list A) (a b limit : nat)
         (wasBalanced wasPartitioned : bool) : list A :=
  match fuel with
  | O => data
  | S f =>
      let length := (b - a)%nat in
      if (length <=? 12)%nat then insertionSort_func data a b
      else if (limit =? 0)%nat then heapSort_func data a b
      else
        let '(data, limit) :=
          if negb wasBalanced then (breakPatterns_func data a b, (limit - 1)%nat)
          else (data, limit) in
        let '(pivot, hint) := choosePivot_func data a b in
        let '(data, pivot, hint) :=
          match hint with
          | decreasingHint => (reverseRange_func data a b, ((b - 1) - (pivot - a))%nat,
                               increasingHint)
          | _ => (data, pivot, hint)
          end in
        let '(sorted, data) :=
          match wasBalanced, wasPartitioned, hint with
          | true, true, increasingHint => partialInsertionSort_func data a b
          | _, _, _ => (false, data)
          end in
        if sorted then data
        else if (0 <? a)%nat && negb (less data (a - 1) pivot) then
          let '(data, mid) := partitionEqual_func data a b pivot in
          pdqsort_func f data mid b limit wasBalanced wasPartitioned
        else
          let '(data, mid, alreadyPartitioned) := partition_func data a b pivot in
          let wasPartitioned := alreadyPartitioned in
          let leftLen := (mid - a)%nat in
          let rightLen := (b - mid)%nat in
          let balanceThreshold := (length / 8)%nat in
          if (leftLen <? rightLen)%nat then
            let wasBalanced := (balanceThreshold <=? leftLen)%nat in
            let data := pdqsort_func f data a mid limit true true in
            pdqsort_func f data (S mid) b limit wasBalanced wasPartitioned
          else
            let wasBalanced := (balanceThreshold <=? rightLen)%nat in
            let data := pdqsort_func f data (S mid) b limit true true in
            pdqsort_func f data a mid limit wasBalanced wasPartitioned
  end.

(** [sort.Slice(x, less)] *)
Definition Slice (data : list A) : list A :=
  let n := List.length data in
  pdqsort_func (S n) data O n (Z.to_nat (bits_Len (Z.of_nat n))) true true.

End Pdq.
End GoSort.

(** Go's [sort.Slice], as used by the methods. *)
Definition go_sort_slice (A : Type) (lt : A -> A -> bool) (l : list A) : list A :=
  GoSort.Slice lt l.

(** ** Game-level events: one method call or one step of the countdown
    goroutine, on a Game and its goroutine's position. A panic is a crash
    of the process (no [recover] anywhere). *)

Inductive GameEvent :=
| GStartOrSkip                               (** host's StartGame *)
| GAnswer (choice : Z) (pi : nat)            (** QuestionAnswer of player [pi] *)
| GJoin (id : nat) (name : string) (con : Conn)
| GDisconnect (player : Player.t)
| GTimer.                                    (** one step of the countdown loop *)

Inductive gres :=
| GOk (g : Game.t) (tm : Timer) (out : list Out)
| GCrash (g : Game.t) (out : list Out).

Section Steps.
Context (sort_slice : forall A : Type, (A -> A -> bool) -> list A -> list A).
Context (write_fails : WriteFails).

Definition lift (m : GM unit) (g : Game.t) (tm : Timer) : gres :=
  match m g [] with
  | Ret _ g' o => GOk g' tm o
  | Panic g' o => GCrash g' o
  end.

Definition game_step (e : GameEvent) (g : Game.t) (tm : Timer) : gres :=
  match e with
  | GStartOrSkip =>
      match StartOrSkip write_fails g [] with
      | Ret spawned g' o => GOk g' (if spawned then TimerAtCheck else tm) o
      | Panic g' o => GCrash g' o
      end
  | GAnswer choice pi => lift (OnPlayerAnswer write_fails choice pi) g tm
  | GJoin id name con => lift (OnPlayerJoin write_fails id name con) g tm
  | GDisconnect player => lift (OnPlayerDisconnect write_fails player) g tm
  | GTimer =>
      match tm with
      | TimerAtCheck => GOk g (if Game.Ended g then TimerDone else TimerAtTick) []
      | TimerAtTick => lift (Tick sort_slice write_fails) g TimerAtCheck
      | _ => GOk g tm []
      end
  end.

End Steps.

(** Run a sequence of events, the [n]-th with the oracle [wfs n]; the
    packets of all steps are concatenated; the boolean says whether the run
    ended in a crash. *)
Fixpoint game_run (sort_slice : forall A : Type, (A -> A -> bool) -> list A -> list A)
    (wfs : nat -> WriteFails) (evs : list GameEvent) (g : Game.t) (tm : Timer)
  : Game.t * Timer * list Out * bool :=
  match evs with
  | [] => (g, tm, [], false)
  | e :: evs' =>
      match game_step sort_slice (wfs O) e g tm with
      | GOk g' tm' o =>
          let '(g'', tm'', o', crashed) := game_run sort_slice (fun n => wfs (S n)) evs' g' tm' in
          (g'', tm'', o ++ o', crashed)
      | GCrash g' o => (g', tm, o, true)
      end
  end.

(** ** Packet codec (net.go)

    [json.Unmarshal] and [json.Marshal] belong to Go's library: a codec
    gives, for each struct the server decodes, the field values
    [json.Unmarshal] stores into the zero struct (or its error), and the
    bytes [json.Marshal] produces for each packet. *)
Record JsonCodec := {
  Marshal : Packet -> list byte;
  Unmarshal_Connect : list byte -> option (string * string);
  Unmarshal_HostGame : list byte -> option string;
  Unmarshal_StartGame : list byte -> option unit;
  Unmarshal_QuestionAnswer : list byte -> option Z }.

Section Codec.
Context (json : JsonCodec).

(** packetIdToPacket: a pointer to the zero struct of the kind, [nil]
    otherwise. *)
Definition packetIdToPacket (packetId : byte) : option Any :=
  match packetId with
  | x00 => Some (Ptr (ConnectPacket EmptyString EmptyString))
  | x01 => Some (Ptr (HostGamePacket EmptyString))
  | x05 => Some (Ptr StartGamePacket)
  | x07 => Some (Ptr (QuestionAnswerPacket 0))
  | _ => None
  end.

(** [json.Unmarshal(data, packet)] through the pointer [packet] to a zero
    struct; only such pointers reach it. *)
Definition unmarshal (data : list byte) (packet : Any) : option Any :=
  match packet with
  | Ptr (ConnectPacket _ _) =>
      option_map (fun cn => Ptr (ConnectPacket (fst cn) (snd cn))) (Unmarshal_Connect json data)
  | Ptr (HostGamePacket _) =>
      option_map (fun q => Ptr (HostGamePacket q)) (Unmarshal_HostGame json data)
  | Ptr StartGamePacket => option_map (fun _ => Ptr StartGamePacket) (Unmarshal_StartGame json data)
  | Ptr (QuestionAnswerPacket _) =>
      option_map (fun q => Ptr (QuestionAnswerPacket q)) (Unmarshal_QuestionAnswer json data)
  | _ => None
  end.

(** The decoding part of [OnIncomingMessage]: [None] is every early
    [return] before the [switch]. *)
Definition decodePacket (msg : list byte) : option Any :=
  if (List.length msg <? 2)%nat then None
  else match msg with
       | [] => None
       | packetId :: data =>
           match packetIdToPacket packetId with
           | None => None
           | Some packet => unmarshal data packet
           end
       end.

(** packetToPacketId: its type switch lists struct types, not pointer
    types; [None] is the error "invalid packet type". *)
Definition packetToPacketId (packet : Any) : option byte :=
  match packet with
  | Val (QuestionShowPacket _) => Some x02
  | Val (HostGamePacket _) => Some x01
  | Val (ChangeGameStatePacket _) => Some x03
  | Val (PlayerJoinPacket _) => Some x04
  | Val (TickPacket _) => Some x06
  | Val (PlayerRevealPacket _) => Some x08
  | Val (LeaderboardPacket _) => Some x09
  | Val (PlayerDisconnectPacket _) => Some x0a
  | _ => None
  end.

(** PacketToBytes ([json.Marshal] cannot fail on these structs, and
    marshals a pointer as the struct it points to). *)
Definition PacketToBytes (packet : Any) : option (list byte) :=
  match packetToPacketId packet with
  | None => None
  | Some packetId => Some (packetId :: Marshal json (any_packet packet))
  end.
End Codec.

(** ** NetService (net.go): the list of live games, each with the position
    of its countdown goroutine. *)

Inductive nres :=
| NOk (games : list (Game.t * Timer)) (out : list Out)
| NCrash (games : list (Game.t * Timer)) (out : list Out).

(** Events of the service: an incoming websocket message (with the fresh
    [uuid.New()] and [generateCode()] values a step may draw), a
    disconnection, one step of the countdown goroutine of the [gi]-th game. *)
Inductive NetEvent :=
| EvMessage (con : Conn) (msg : list byte) (id : nat) (code : string)
| EvDisconnect (con : Conn)
| EvTimer (gi : nat).

Fixpoint find_index {A} (p : A -> bool) (l : list A) : option nat :=
  match l with
  | [] => None
  | x :: l' => if p x then Some O else option_map S (find_index p l')
  end.

Definition getGameByCode (code : string) (games : list (Game.t * Timer)) : option nat :=
  find_index (fun gt => String.eqb (Game.Code (fst gt)) code) games.

Definition getGameByHost (host : Conn) (games : list (Game.t * Timer)) : option nat :=
  find_index (fun gt => Nat.eqb (Game.Host (fst gt)) host) games.

(** getGameByPlayer: positions of the game and of the player. *)
Fixpoint getGameByPlayer (con : Conn) (games : list (Game.t * Timer)) : option (nat * nat) :=
  match games with
  | [] => None
  | (g, _) :: games' =>
      match find_index (fun p => Nat.eqb (Player.Connection p) con) (Game.Players g) with
      | Some pi => Some (O, pi)
      | None => option_map (fun gp => (S (fst gp), snd gp)) (getGameByPlayer con games')
      end
  end.

Section Net.
Context (sort_slice : forall A : Type, (A -> A -> bool) -> list A -> list A)
        (json : JsonCodec)
        (** [ObjectIDFromHex] then [quizCollection.GetQuizById]: [None] for
            an invalid id, a lookup error or a missing quiz. *)
        (fetchQuiz : string -> option Quiz.t)
        (write_fails : WriteFails).

Definition step_game (gi : nat) (e : GameEvent) (games : list (Game.t * Timer)) : nres :=
  match nth_error games gi with
  | None => NOk games []
  | Some (g, tm) =>
      match game_step sort_slice write_fails e g tm with
      | GOk g' tm' o => NOk (update_nth gi (fun _ => (g', tm')) games) o
      | GCrash g' o => NCrash (update_nth gi (fun _ => (g', tm)) games) o
      end
  end.

Definition OnIncomingMessage (con : Conn) (msg : list byte) (id : nat) (code : string)
           (games : list (Game.t * Timer)) : nres :=
  match decodePacket json msg with
  | None => NOk games []
  | Some packet =>
      match packet with
      | Ptr (ConnectPacket gameCode name) =>
          match getGameByCode gameCode games with
          | None => NOk games []
          | Some gi => step_game gi (GJoin id name con) games
          end
      | Ptr (HostGamePacket quizId) =>
          match fetchQuiz quizId with
          | None => NOk games []
          | Some quiz =>
              let game := newGame id code quiz con in
              NOk (games ++ [(game, TimerOff)])
                  [(con, HostGamePacket (Game.Code game));
                   (con, ChangeGameStatePacket (Game.State game))]
          end
      | Ptr StartGamePacket =>
          match getGameByHost con games with
          | None => NOk games []
          | Some gi => step_game gi GStartOrSkip games
          end
      | Ptr (QuestionAnswerPacket question) =>
          match getGameByPlayer con games with
          | None => NOk games []
          | Some (gi, pi) => step_game gi (GAnswer question pi) games
          end
      | _ => NOk games []
      end
  end.

Definition OnDisconnect (con : Conn) (games : list (Game.t * Timer)) : nres :=
  match getGameByPlayer con games with
  | None => NOk games []
  | Some (gi, pi) =>
      match nth_error games gi with
      | None => NOk games []
      | Some (g, _) =>
          match nth_error (Game.Players g) pi with
          | None => NOk games []
          | Some player => step_game gi (GDisconnect player) games
          end
      end
  end.

Definition net_step (e : NetEvent) (games : list (Game.t * Timer)) : nres :=
  match e with
  | EvMessage con msg id code => OnIncomingMessage con msg id code games
  | EvDisconnect con => OnDisconnect con games
  | EvTimer gi => step_game gi GTimer games
  end.

End Net.

(** Run a sequence of service events, the [n]-th with the oracle [wfs n]. *)
Fixpoint net_run (sort_slice : forall A : Type, (A -> A -> bool) -> list A -> list A)
    (json : JsonCodec) (fetchQuiz : string -> option Quiz.t)
    (wfs : nat -> WriteFails) (evs : list NetEvent) (games : list (Game.t * Timer))
  : list (Game.t * Timer) * list Out * bool :=
  match evs with
  | [] => (games, [], false)
  | e :: evs' =>
      match net_step sort_slice json fetchQuiz (wfs O) e games with
      | NOk games' o =>
          let '(games'', o', crashed) :=
            net_run sort_slice json fetchQuiz (fun n => wfs (S n)) evs' games' in
          (games'', o ++ o', crashed)
      | NCrash games' o => (games', o, true)
      end
  end.

(** ** A reference codec: [encoding/json] on ASCII payloads

    [json_ref] decodes the JSON objects of printable-ASCII text whose
    values are strings or integers, as [json.Unmarshal] does on them
    (keys matched to the field names case-insensitively, the last
    occurrence wins, unknown keys ignored, a value of the wrong type is an
    error); it refuses every other input (a subset of what Go accepts).
    Its [Marshal] writes the fields under their json tags with Go's
    escapes. The UUIDs are written as decimal numbers (the model's [nat]
    ids). It is used to run the service on concrete bytes. *)
Module JsonRef.
Local Open Scope string_scope.
Local Open Scope list_scope.

Inductive JValue := JString (s : list byte) | JNumber (z : Z).

Definition is_ws (b : byte) : bool :=
  match b with x20 | x09 | x0a | x0d => true | _ => false end.

Fixpoint skip_ws (l : list byte) : list byte :=
  match l with
  | b :: l' => if is_ws b then skip_ws l' else l
  | [] => []
  end.

Definition hex_val (b : byte) : option nat :=
  let n := Byte.to_nat b in
  if (48 <=? n)%nat && (n <=? 57)%nat then Some (n - 48)%nat
  else if (97 <=? n)%nat && (n <=? 102)%nat then Some (n - 87)%nat
  else if (65 <=? n)%nat && (n <=? 70)%nat then Some (n - 55)%nat
  else None.

(** One escape sequence after a backslash. *)
Definition unescape (l : list byte) : option (byte * list byte) :=
  match l with
  | [] => None
  | e :: r =>
      if Byte.eqb e x22 then Some (x22, r)
      else if Byte.eqb e x5c then Some (x5c, r)
      else if Byte.eqb e x2f then Some (x2f, r)
      else if Byte.eqb e x62 then Some (x08, r)
      else if Byte.eqb e x66 then Some (x0c, r)
      else if Byte.eqb e x6e then Some (x0a, r)
      else if Byte.eqb e x72 then Some (x0d, r)
      else if Byte.eqb e x74 then Some (x09, r)
      else if Byte.eqb e x75 then
        match r with
        | h1 :: h2 :: h3 :: h4 :: r' =>
            match hex_val h1, hex_val h2, hex_val h3, hex_val h4 with
            | Some 0%nat, Some 0%nat, Some d3, Some d4 =>
                if (d3 <? 8)%nat
                then option_map (fun c => (c, r')) (Byte.of_nat (16 * d3 + d4))
                else None
            | _, _, _, _ => None
            end
        | _ => None
        end
      else None
  end.

Definition printable (b : byte) : bool :=
  (32 <=? Byte.to_nat b)%nat && (Byte.to_nat b <? 128)%nat.

(** The characters of a string literal up to its closing quote. *)
Fixpoint parse_chars (fuel : nat) (l : list byte) : option (list byte * list byte) :=
  match fuel with
  | O => None
  | S f =>
      match l with
      | [] => None
      | b :: l' =>
          if Byte.eqb b x22 then Some ([], l')
          else if Byte.eqb b x5c then
            match unescape l' with
            | None => None
            | Some (c, r) =>
                match parse_chars f r with
                | Some (s, r') => Some (c :: s, r')
                | None => None
                end
            end
          else if printable b then
            match parse_chars f l' with
            | Some (s, r) => Some (b :: s, r)
            | None => None
            end
          else None
      end
  end.

Definition digit (b : byte) : option Z :=
  let n := Byte.to_nat b in
  if (48 <=? n)%nat && (n <=? 57)%nat then Some (Z.of_nat (n - 48)) else None.

Fixpoint parse_digits (l : list byte) (acc : Z) : Z * list byte :=
  match l with
  | b :: l' => match digit b with
               | Some d => parse_digits l' (acc * 10 + d)
               | None => (acc, l)
               end
  | [] => (acc, [])
  end.

(** An integer: optional minus, no leading zero, within [int64]. *)
Definition parse_int (l : list byte) : option (Z * list byte) :=
  let '(neg, l) := match l with
                   | b :: l' => if Byte.eqb b x2d then (true, l') else (false, l)
                   | [] => (false, l)
                   end in
  match l with
  | b :: l' =>
      match digit b with
      | None => None
      | Some 0 => match l' with
                  | c :: _ => match digit c with Some _ => None | None => Some (0, l') end
                  | [] => Some (0, l')
                  end
      | Some d =>
          let '(n, r) := parse_digits l' d in
          let z := if neg then - n else n in
          if ((- 2 ^ 63 <=? z) && (z <? 2 ^ 63))%Z then Some (z, r) else None
      end
  | [] => None
  end.

Definition parse_value (l : list byte) : option (JValue * list byte) :=
  match l with
  | b :: l' =>
      if Byte.eqb b x22 then
        option_map (fun sr => (JString (fst sr), snd sr)) (parse_chars (S (List.length l')) l')
      else option_map (fun zr => (JNumber (fst zr), snd zr)) (parse_int l)
  | [] => None
  end.

Definition expect (c : byte) (l : list byte) : option (list byte) :=
  match skip_ws l with
  | b :: l' => if Byte.eqb b c then Some l' else None
  | [] => None
  end.

(** The members of an object after its [{], up to and including its [}]. *)
Fixpoint parse_members (fuel : nat) (l : list byte)
  : option (list (list byte * JValue) * list byte) :=
  match fuel with
  | O => None
  | S f =>
      match expect x22 l with
      | None => None
      | Some l1 =>
          match parse_chars (S (List.length l1)) l1 with
          | None => None
          | Some (k, l2) =>
              match expect x3a l2 with
              | None => None
              | Some l3 =>
                  match parse_value (skip_ws l3) with
                  | None => None
                  | Some (v, l4) =>
                      match skip_ws l4 with
                      | b :: l5 =>
                          if Byte.eqb b x2c then
                            option_map (fun mr => ((k, v) :: fst mr, snd mr))
                                       (parse_members f l5)
                          else if Byte.eqb b x7d then Some ([(k, v)], l5)
                          else None
                      | [] => None
                      end
                  end
              end
          end
      end
  end.

(** A whole payload: one object and nothing but blanks after it. *)
Definition parse_object (l : list byte) : option (list (list byte * JValue)) :=
  match expect x7b l with
  | None => None
  | Some l1 =>
      let r := match expect x7d l1 with
               | Some l2 => Some ([], l2)
               | None => parse_members (S (List.length l1)) l1
               end in
      match r with
      | Some (ms, rest) => match skip_ws rest with [] => Some ms | _ => None end
      | None => None
      end
  end.

Definition lower (b : byte) : nat :=
  let n := Byte.to_nat b in if (65 <=? n)%nat && (n <=? 90)%nat then (n + 32)%nat else n.

Fixpoint fold_eq (a b : list byte) : bool :=
  match a, b with
  | [], [] => true
  | x :: a', y :: b' => Nat.eqb (lower x) (lower y) && fold_eq a' b'
  | _, _ => false
  end.

(** The value stored into the field tagged [key]: the last member whose
    key matches it. *)
Definition field (key : string) (ms : list (list byte * JValue)) : option JValue :=
  fold_left (fun acc kv => if fold_eq (fst kv) (list_byte_of_string key) then Some (snd kv)
                          else acc) ms None.

Definition string_field (key : string) (ms : list (list byte * JValue)) : option string :=
  match field key ms with
  | None => Some EmptyString
  | Some (JString s) => Some (string_of_list_byte s)
  | Some (JNumber _) => None
  end.

Definition int_field (key : string) (ms : list (list byte * JValue)) : option Z :=
  match field key ms with
  | None => Some 0
  | Some (JNumber z) => Some z
  | Some (JString _) => None
  end.

Definition unmarshal_Connect (data : list byte) : option (string * string) :=
  match parse_object data with
  | None => None
  | Some ms => match string_field "code" ms, string_field "name" ms with
               | Some c, Some n => Some (c, n)
               | _, _ => None
               end
  end.

Definition unmarshal_HostGame (data : list byte) : option string :=
  match parse_object data with
  | None => None
  | Some ms => string_field "quizId" ms
  end.

Definition unmarshal_StartGame (data : list byte) : option unit :=
  option_map (fun _ => tt) (parse_object data).

Definition unmarshal_QuestionAnswer (data : list byte) : option Z :=
  match parse_object data with
  | None => None
  | Some ms => int_field "question" ms
  end.

(** [json.Marshal] *)
Definition byte_of (n : nat) : byte :=
  match Byte.of_nat n with Some b => b | None => x3f end.

Definition hex_digit (n : nat) : byte :=
  if (n <? 10)%nat then byte_of (48 + n) else byte_of (87 + n).

Definition escape_byte (b : byte) : list byte :=
  let n := Byte.to_nat b in
  if Byte.eqb b x22 then [x5c; x22]
  else if Byte.eqb b x5c then [x5c; x5c]
  else if Byte.eqb b x0a then [x5c; x6e]
  else if Byte.eqb b x0d then [x5c; x72]
  else if Byte.eqb b x09 then [x5c; x74]
  else if Byte.eqb b x08 then [x5c; x62]
  else if Byte.eqb b x0c then [x5c; x66]
  else if (n <? 32)%nat || Byte.eqb b x3c || Byte.eqb b x3e || Byte.eqb b x26 then
    [x5c; x75; x30; x30; hex_digit (n / 16); hex_digit (n mod 16)]
  else [b].

Definition quote (s : list byte) : list byte := x22 :: flat_map escape_byte s ++ [x22].

Definition str (s : string) : list byte := quote (list_byte_of_string s).

Fixpoint decimal_digits (fuel : nat) (n : Z) (acc : list byte) : list byte :=
  match fuel with
  | O => acc
  | S f =>
      let acc := byte_of (48 + Z.to_nat (n mod 10)) :: acc in
      if (n / 10 =? 0)%Z then acc else decimal_digits f (n / 10) acc
  end.

Definition int (z : Z) : list byte :=
  if (z <? 0)%Z then x2d :: decimal_digits 64 (- z) [] else decimal_digits 64 z [].

Definition boolean (b : bool) : list byte :=
  list_byte_of_string (if b then "true" else "false").

Fixpoint join (sep : byte) (items : list (list byte)) : list byte :=
  match items with
  | [] => []
  | [x] => x
  | x :: items' => x ++ sep :: join sep items'
  end.

Definition obj (fields : list (string * list byte)) : list byte :=
  x7b :: join x2c (map (fun kv => str (fst kv) ++ x3a :: snd kv) fields) ++ [x7d].

Definition arr (items : list (list byte)) : list byte := x5b :: join x2c items ++ [x5d].

Definition uuid (id : nat) : list byte := quote (int (Z.of_nat id)).

Definition state_code (s : GameState) : Z :=
  match s with
  | LobbyState => 0 | PlayState => 1 | IntermissionState => 2
  | RevealState => 3 | EndState => 4
  end.

Definition choice_json (c : QuizChoice.t) : list byte :=
  obj [("id", str (QuizChoice.Id c)); ("name", str (QuizChoice.Name c));
       ("correct", boolean (QuizChoice.Correct c))].

Definition question_json (q : QuizQuestion.t) : list byte :=
  obj [("id", str (QuizQuestion.Id q)); ("name", str (QuizQuestion.Name q));
       ("time", int (QuizQuestion.Time q));
       ("choices", arr (map choice_json (QuizQuestion.Choices q)))].

Definition marshal (p : Packet) : list byte :=
  match p with
  | ConnectPacket c n => obj [("code", str c); ("name", str n)]
  | HostGamePacket q => obj [("quizId", str q)]
  | QuestionShowPacket q => obj [("question", question_json q)]
  | ChangeGameStatePacket s => obj [("state", int (state_code s))]
  | PlayerJoinPacket pl =>
      obj [("player", obj [("id", uuid (Player.Id pl)); ("name", str (Player.Name pl))])]
  | PlayerDisconnectPacket id => obj [("playerId", uuid id)]
  | StartGamePacket => obj []
  | TickPacket t => obj [("tick", int t)]
  | QuestionAnswerPacket q => obj [("question", int q)]
  | PlayerRevealPacket pts => obj [("points", int pts)]
  | LeaderboardPacket es =>
      obj [("points", arr (map (fun e => obj [("name", str (LeaderboardEntry.Name e));
                                              ("points", int (LeaderboardEntry.Points e))]) es))]
  end.

End JsonRef.

Definition json_ref : JsonCodec := {|
  Marshal := JsonRef.marshal;
  Unmarshal_Connect := JsonRef.unmarshal_Connect;
  Unmarshal_HostGame := JsonRef.unmarshal_HostGame;
  Unmarshal_StartGame := JsonRef.unmarshal_StartGame;
  Unmarshal_QuestionAnswer := JsonRef.unmarshal_QuestionAnswer |}.

(** ** Helper definitions for the statements *)



(** The comparator of [getLeaderboard]: [g.Players[i].Points > g.Players[j].Points]. *)
Definition by_points_desc (a b : Player.t) : bool := Player.Points b <? Player.Points a.

(** What Go documents of [sort.Slice] for a strict weak order [less]: the
    result is a permutation of the slice, and no element is [less] than
    one before it. Stated for the comparator the program uses. *)
Definition sorts_by_points
  (sort_slice : forall A : Type, (A -> A -> bool) -> list A -> list A) : Prop :=
  forall l : list Player.t,
    Permutation (sort_slice Player.t by_points_desc l) l /\
    Sorted (fun x y => Player.Points y <= Player.Points x)
           (sort_slice Player.t by_points_desc l).

(** Insertion sort, a [sort.Slice] that is stable: used to instantiate the
    contract above on concrete inputs. *)
Fixpoint insert_by {A} (lt : A -> A -> bool) (x : A) (l : list A) : list A :=
  match l with
  | [] => [x]
  | y :: l' => if lt x y then x :: y :: l' else y :: insert_by lt x l'
  end.

Fixpoint insertion_sort {A} (lt : A -> A -> bool) (l : list A) : list A :=
  match l with
  | [] => []
  | x :: l' => insert_by lt x (insertion_sort lt l')
  end.

Definition stable_sort_slice (A : Type) (lt : A -> A -> bool) (l : list A) : list A :=
  insertion_sort lt (rev l).

(** [roundtrips] is the encode-after-decode property of the packet codec. *)
Definition roundtrips (json : JsonCodec) : Prop :=
  forall msg p, decodePacket json msg = Some p ->
    exists msg', PacketToBytes json p = Some msg' /\ decodePacket json msg' = Some p.

(** The number a string of decimal digits denotes ([strconv.Atoi] on it). *)
Fixpoint decimal_value (s : string) (acc : Z) : Z :=
  match s with
  | EmptyString => acc
  | String c s' => decimal_value s' (10 * acc + (Z.of_nat (nat_of_ascii c) - 48))
  end.



Definition encodable (out : list Out) : Prop :=
  forall c p, In (c, p) out -> packetToPacketId (Val p) <> None.

(** ** Concrete inputs *)

(** A transport on which every write succeeds, in every step. *)
Definition no_fail : WriteFails := fun _ _ => false.
Definition never_fails : nat -> WriteFails := fun _ => no_fail.

Definition choice_ok : QuizChoice.t := QuizChoice.mk "a" "A" true.
Definition choice_ko : QuizChoice.t := QuizChoice.mk "b" "B" false.

(** A question of [time] seconds whose choice 0 is the correct one. *)
Definition question (time : Z) : QuizQuestion.t := QuizQuestion.mk "q" "Q" time [choice_ok; choice_ko].

Definition quiz_of (qs : list QuizQuestion.t) : Quiz.t := Quiz.mk "quiz" "Quiz" qs.

Definition one_question_quiz : Quiz.t := quiz_of [question 60].

(** The quiz collection: the id ["q1"] names [quiz], nothing else exists. *)
Definition fetch_one (quiz : Quiz.t) (quizId : string) : option Quiz.t :=
  if String.eqb quizId "q1" then Some quiz else None.

Definition name_of (i : nat) : string := String (ascii_of_nat (97 + i)%nat) EmptyString.

(** Player [i] connected on connection [10 + i]. *)
Definition player (i : nat) (points : Z) (answered : bool) : Player.t :=
  Player.mk i (name_of i) (10 + i)%nat points 0 answered.

(** The messages of the client, as [PacketToBytes] would frame them. *)
Definition msg_host (quizId : string) : list byte :=
  x01 :: JsonRef.obj [("quizId"%string, JsonRef.str quizId)].
Definition msg_join (code name : string) : list byte :=
  x00 :: JsonRef.obj [("code"%string, JsonRef.str code); ("name"%string, JsonRef.str name)].
Definition msg_start : list byte := x05 :: JsonRef.obj [].
Definition msg_answer (choice : Z) : list byte :=
  x07 :: JsonRef.obj [("question"%string, JsonRef.int choice)].

(** Scoring: six players on a 60-second question with 30 seconds left;
    the first [k] have answered already. *)
Definition scoring_game (k : nat) : Game.t :=
  Game.mk 1 (quiz_of [question 60]) 0 "000000" PlayState false 30
          (map (fun i => player i 0 (i <? k)%nat) (seq 0 6)) 0%nat.

(** Points awarded to player [pi] by its answer [choice]. *)
Definition award (choice : Z) (pi : nat) (g : Game.t) : option Z :=
  match OnPlayerAnswer no_fail choice pi g [] with
  | Ret _ g' _ => option_map Player.LastAwardedPoints (nth_error (Game.Players g') pi)
  | Panic _ _ => None
  end.

(** Thirteen players, three of them tied at the top. *)
Definition tie_points : list Z := [0; 0; 0; 5; 0; 0; 5; 0; 0; 5; 10; 10; 10].

Definition tie_game : Game.t :=
  Game.mk 1 one_question_quiz 0 "000000" RevealState false 1
          (map (fun ip => player (fst ip) (snd ip) true) (combine (seq 0 13) tie_points)) 0%nat.

Definition leaderboard_of sort_slice (g : Game.t) : list LeaderboardEntry.t :=
  match getLeaderboard sort_slice g [] with
  | Ret l _ _ => l
  | Panic _ _ => []
  end.

(** Two players in join order, the later one ahead on points, at the last
    second of the reveal. *)
Definition two_player_game : Game.t :=
  Game.mk 1 one_question_quiz 0 "000000" RevealState false 1
          [player 0 0 true; player 1 100 true] 0%nat.

(** [n] rounds of the countdown loop (check [Ended], then [Tick]). *)
Fixpoint countdown (n : nat) : list GameEvent :=
  match n with O => [] | S n' => GTimer :: GTimer :: countdown n' end.



(** ** Concrete runs *)

(** A fresh Game on [quiz], hosted on connection 0. *)
Definition game0 (quiz : Quiz.t) : Game.t := newGame 1 "000000" quiz 0%nat.

(** Players [0 .. n-1] join, player [i] on connection [10 + i]. *)
Definition joins (n : nat) : list GameEvent :=
  map (fun i => GJoin i (name_of i) (10 + i)%nat) (seq 0 n).

(** Six players join, the host starts, 30 seconds pass, player 0 answers
    choice 0 (the correct one) first. *)
Definition scoring_run : list GameEvent :=
  joins 6 ++ [GStartOrSkip] ++ countdown 30 ++ [GAnswer 0 0].


(** The one-question Game once the host has started it and skipped its
    question: End state, [Ended] set, index 1. *)
Definition ended_game : Game.t :=
  Game.mk 1 one_question_quiz 1 "000000" EndState true 60 [] 0%nat.

(** Two players join; player 1 answers right, player 0 wrong; the reveal
    runs its five seconds. *)
Definition reorder_run : list GameEvent :=
  joins 2 ++ [GStartOrSkip; GAnswer 0 1; GAnswer 1 0] ++ countdown 5.

(** A host on connection 1 hosts ["q1"], joins its own Game as a player,
    and starts it. *)
Definition self_join_events : list NetEvent :=
  [EvMessage 1%nat (msg_host "q1") 1%nat "000000";
   EvMessage 1%nat (msg_join "000000" "h") 7%nat EmptyString;
   EvMessage 1%nat msg_start 0%nat EmptyString].

(** A player joins and answers while the Game is in the lobby. *)
Definition lobby_answer_events : list NetEvent :=
  [EvMessage 0%nat (msg_host "q1") 1%nat "000000";
   EvMessage 10%nat (msg_join "000000" "a") 5%nat EmptyString;
   EvMessage 10%nat (msg_answer 0) 0%nat EmptyString].

(** ** Closed forms used by the lemmas below *)

(** The sends a broadcast of the packets [l] makes after the packets [o]
    when writes fail as [wf] says: up to and including the first failed
    write; the boolean is the error returned. *)
Fixpoint sends_until_fail (wf : WriteFails) (o : list Out) (l : list Out)
  : list Out * bool :=
  match l with
  | [] => ([], false)
  | x :: l' =>
      if wf o x then ([x], true)
      else let r := sends_until_fail wf (o ++ [x]) l' in (x :: fst r, snd r)
  end.

(** The full fan-out of [BroadcastPacket packet includeHost] on [g]. *)
Definition broadcast_targets (g : Game.t) (packet : Packet) (includeHost : bool) : list Out :=
  map (fun player => (Player.Connection player, packet)) (Game.Players g) ++
  (if includeHost then [(Game.Host g, packet)] else []).

(** The sends of [ChangeState s] on [g] after the packets [o]. *)
Definition state_sends (wf : WriteFails) (o : list Out) (g : Game.t) (s : GameState)
  : list Out :=
  fst (sends_until_fail wf o (broadcast_targets g (ChangeGameStatePacket s) true)).

(** A broadcast that sent [sent] after the packets [o] returns an error
    when its last send failed under the write failures [wf]. *)
Definition broadcast_failed (wf : WriteFails) (o sent : list Out) : Prop :=
  exists pre x, sent = pre ++ [x] /\ wf (o ++ pre) x = true.

(** [sent] is what a broadcast of the packets [full], made after the
    packets [o] with the write failures [wf], can have sent: a prefix of
    [full] in which every send but the last succeeded, and which stops short
    of [full] only after a failed send. *)
Definition broadcast_of (wf : WriteFails) (o full sent : list Out) : Prop :=
  exists rest, full = sent ++ rest /\
  (forall pre x post, sent = pre ++ x :: post -> post <> [] -> wf (o ++ pre) x = false) /\
  (rest <> [] -> broadcast_failed wf o sent).

(** [isCorrectChoice] once the current question [q] is known. *)
Definition choice_is_correct (q : QuizQuestion.t) (choice : Z) : bool :=
  match index (QuizQuestion.Choices q) choice with
  | Some c => QuizChoice.Correct c
  | None => false
  end.

(** What [getPointsReward] returns on [g]. *)
Definition points_reward (g : Game.t) : Z :=
  wrap64 (5000 - 1000 * Z.min 4 (Z.of_nat (List.length (getAnsweredPlayers g)))
          + wrap64 (Game.Time g * (1000 / 60))).

(** The three writes of [OnPlayerAnswer] through the player pointer. *)
Definition answer_update (correct : bool) (reward : Z) (p : Player.t) : Player.t :=
  Player.set_Answered
    (if correct
     then Player.set_Points (Player.set_LastAwardedPoints p reward)
                            (wrap64 (Player.Points p + reward))
     else Player.set_LastAwardedPoints p 0) true.


(** All the [QuestionShow] packets of [out] go to [h]. *)
Definition shows_only_to (h : Conn) (out : list Out) : Prop :=
  forall c q, In (c, QuestionShowPacket q) out -> c = h.



(** Every [QuestionShow] packet of [out] goes to the host connection of
    one of the [games]. *)
Definition shows_to_hosts (games : list (Game.t * Timer)) (out : list Out) : Prop :=
  forall c q, In (c, QuestionShowPacket q) out ->
    exists g tm, In (g, tm) games /\ Game.Host g = c.

(** * Lemmas *)

(** ** Go integers *)

Lemma wrap64_id z : in_int64 z -> wrap64 z = z.
Proof.
  unfold in_int64, wrap64, int_modulus; intros H.
  rewrite Z.mod_small; lia.
Qed.

(** ** Closed forms of the methods *)

Lemma send_all_spec wf l g o : send_all wf l g o = Ret tt g (o ++ l).
Proof.
  revert o; induction l as [|[c p] l IH]; intros o; simpl.
  - rewrite app_nil_r; reflexivity.
  - unfold bind, send, SendPacket, ret; simpl. rewrite IH, <- app_assoc. reflexivity.
Qed.

Lemma sends_until_fail_app wf o l1 l2 :
  sends_until_fail wf o (l1 ++ l2) =
  let r1 := sends_until_fail wf o l1 in
  if snd r1 then r1
  else let r2 := sends_until_fail wf (o ++ l1) l2 in (fst r1 ++ fst r2, snd r2).
Proof.
  revert o; induction l1 as [|x l1 IH]; intros o; simpl.
  - rewrite app_nil_r. destruct (sends_until_fail wf o l2); reflexivity.
  - destruct (wf o x); [reflexivity|]. rewrite IH. simpl.
    destruct (sends_until_fail wf (o ++ [x]) l1) as [a b]; simpl.
    destruct b; [reflexivity|]. rewrite <- app_assoc. reflexivity.
Qed.

(** The sends of a broadcast are a prefix of its full fan-out. *)
Lemma sends_until_fail_prefix wf o l :
  exists rest, l = fst (sends_until_fail wf o l) ++ rest.
Proof.
  revert o; induction l as [|x l IH]; intros o; simpl.
  - exists []. reflexivity.
  - destruct (wf o x); simpl.
    + exists l. reflexivity.
    + destruct (IH (o ++ [x])) as [rest Hr]. exists rest. simpl. f_equal. exact Hr.
Qed.

Lemma sends_until_fail_In wf o l x :
  In x (fst (sends_until_fail wf o l)) -> In x l.
Proof.
  destruct (sends_until_fail_prefix wf o l) as [rest Hr]. intros H.
  rewrite Hr. apply in_or_app. left. exact H.
Qed.

Lemma sends_until_fail_no_fail o l : sends_until_fail no_fail o l = (l, false).
Proof.
  revert o; induction l as [|x l IH]; intros o; simpl; [reflexivity|].
  rewrite IH. reflexivity.
Qed.

Lemma state_sends_In wf o g s x :
  In x (state_sends wf o g s) ->
  In x (map (fun p => (Player.Connection p, ChangeGameStatePacket s)) (Game.Players g)
        ++ [(Game.Host g, ChangeGameStatePacket s)]).
Proof. apply sends_until_fail_In. Qed.

Lemma state_sends_no_fail o g s :
  state_sends no_fail o g s =
  map (fun p => (Player.Connection p, ChangeGameStatePacket s)) (Game.Players g)
  ++ [(Game.Host g, ChangeGameStatePacket s)].
Proof. unfold state_sends. rewrite sends_until_fail_no_fail. reflexivity. Qed.

Lemma broadcast_players_spec wf players packet g o :
  broadcast_players wf players packet g o =
  let r := sends_until_fail wf o (map (fun player => (Player.Connection player, packet)) players) in
  Ret (snd r) g (o ++ fst r).
Proof.
  revert o; induction players as [|player players IH]; intros o; simpl.
  - rewrite app_nil_r. reflexivity.
  - unfold bind at 1, SendPacket.
    destruct (wf o (Player.Connection player, packet)); simpl; [reflexivity|].
    rewrite IH. simpl. rewrite <- app_assoc. reflexivity.
Qed.

(** A broadcast that returns no error made every send of its fan-out. *)
Lemma sends_until_fail_ok wf o l :
  snd (sends_until_fail wf o l) = false -> fst (sends_until_fail wf o l) = l.
Proof.
  revert o; induction l as [|x l IH]; intros o; simpl; [reflexivity|].
  destruct (wf o x); simpl; [discriminate|]. intros H. rewrite IH by exact H. reflexivity.
Qed.

Lemma sends_until_fail_char wf o l :
  broadcast_of wf o l (fst (sends_until_fail wf o l)) /\
  (snd (sends_until_fail wf o l) = true <-> broadcast_failed wf o (fst (sends_until_fail wf o l))).
Proof.
  unfold broadcast_of, broadcast_failed.
  revert o; induction l as [|x l IH]; intros o; simpl.
  - split.
    + exists []. split; [reflexivity|]. split; [|intros []; reflexivity].
      intros pre x post H. destruct pre; discriminate.
    + split; [discriminate|]. intros (pre & x & H & _). destruct pre as [|? []]; discriminate.
  - destruct (wf o x) eqn:Ex; simpl.
    + split.
      * exists l. split; [reflexivity|]. split.
        -- intros [|y [|z pre]] x' post H Hp; injection H; intros; subst; try congruence;
             destruct pre; discriminate.
        -- intros _. exists [], x. rewrite app_nil_r. split; [reflexivity|exact Ex].
      * split; [intros _; exists [], x; rewrite app_nil_r; split; [reflexivity|exact Ex]|reflexivity].
    + destruct (IH (o ++ [x])) as [(rest & Hf & Hs & Hr) He].
      split.
      * exists rest. split; [simpl; f_equal; exact Hf|]. split.
        -- intros [|y pre] x' post H Hp; injection H as <- H.
           ++ rewrite app_nil_r. exact Ex.
           ++ specialize (Hs pre x' post H Hp). rewrite <- app_assoc in Hs. exact Hs.
        -- intros Hn. destruct (Hr Hn) as (pre & x' & H & Hw).
           exists (x :: pre), x'. rewrite <- app_assoc in Hw. split; [simpl; rewrite H; reflexivity|exact Hw].
      * rewrite He. split.
        -- intros (pre & x' & H & Hw). exists (x :: pre), x'. rewrite <- app_assoc in Hw.
           split; [simpl; rewrite H; reflexivity|exact Hw].
        -- intros ([|y pre] & x' & H & Hw); simpl in H.
           ++ injection H as <- H. rewrite app_nil_r in Hw. congruence.
           ++ injection H as <- H. exists pre, x'. rewrite <- app_assoc. split; [exact H|exact Hw].
Qed.

Lemma state_sends_char wf o g s :
  broadcast_of wf o (map (fun p => (Player.Connection p, ChangeGameStatePacket s)) (Game.Players g)
                     ++ [(Game.Host g, ChangeGameStatePacket s)])
               (state_sends wf o g s).
Proof. apply sends_until_fail_char. Qed.

(** [state_sends] only looks at the connections of the roster and the host. *)
Lemma state_sends_players wf o g g' s :
  map Player.Connection (Game.Players g') = map Player.Connection (Game.Players g) ->
  Game.Host g' = Game.Host g ->
  state_sends wf o g' s = state_sends wf o g s.
Proof.
  intros Hp Hh. unfold state_sends, broadcast_targets.
  rewrite <- (map_map Player.Connection (fun c => (c, ChangeGameStatePacket s)) (Game.Players g')),
          <- (map_map Player.Connection (fun c => (c, ChangeGameStatePacket s)) (Game.Players g)),
          Hp, Hh.
  reflexivity.
Qed.

Lemma BroadcastPacket_spec wf packet includeHost g o :
  let r := sends_until_fail wf o (broadcast_targets g packet includeHost) in
  BroadcastPacket wf packet includeHost g o = Ret (snd r) g (o ++ fst r).
Proof.
  unfold BroadcastPacket, broadcast_targets, bind at 1, get. cbv beta iota.
  unfold bind. rewrite broadcast_players_spec, sends_until_fail_app. cbv zeta.
  destruct (snd (sends_until_fail wf o _)) eqn:E; [unfold ret; rewrite E; reflexivity|].
  rewrite (sends_until_fail_ok _ _ _ E).
  destruct includeHost; unfold SendPacket, ret; simpl.
  - destruct (wf _ _); simpl; rewrite <- app_assoc; reflexivity.
  - rewrite !app_nil_r. reflexivity.
Qed.

Lemma ChangeState_spec wf s g o :
  ChangeState wf s g o = Ret tt (Game.set_State g s) (o ++ state_sends wf o g s).
Proof.
  unfold ChangeState, bind, modify, ret. rewrite BroadcastPacket_spec. reflexivity.
Qed.

Lemma End_spec wf g o :
  End wf g o =
  Ret tt (Game.set_State (Game.set_Ended g true) EndState) (o ++ state_sends wf o g EndState).
Proof. unfold End, bind, modify. rewrite ChangeState_spec. reflexivity. Qed.

Lemma NextQuestion_spec wf g o :
  let g1 := Game.set_CurrentQuestion g (wrap64 (Game.CurrentQuestion g + 1)) in
  let g2 := Game.set_State (Game.set_Players g1
              (map (fun p => Player.set_Answered p false) (Game.Players g))) PlayState in
  let o2 := o ++ state_sends wf o g2 PlayState in
  NextQuestion wf g o =
  if Z.of_nat (List.length (Quiz.Questions (Game.Quiz g))) <=? Game.CurrentQuestion g1
  then End wf g1 o
  else match index (Quiz.Questions (Game.Quiz g)) (Game.CurrentQuestion g1) with
       | Some q => Ret tt (Game.set_Time g2 (QuizQuestion.Time q))
                       (o2 ++ [(Game.Host g, QuestionShowPacket q)])
       | None => Panic g2 o2
       end.
Proof.
  intros g1 g2 o2.
  unfold NextQuestion, ResetPlayerAnswerStates, getCurrentQuestion, bind, modify, get, send,
    SendPacket, ret, panic.
  simpl. destruct (_ <=? _); [reflexivity|].
  rewrite ChangeState_spec. simpl. destruct index; reflexivity.
Qed.

Lemma StartOrSkip_spec wf g o :
  StartOrSkip wf g o =
  match Game.State g with
  | LobbyState =>
      match NextQuestion wf (Game.set_State g PlayState) (o ++ state_sends wf o g PlayState) with
      | Ret _ g' o' => Ret true g' o'
      | Panic g' o' => Panic g' o'
      end
  | _ => match NextQuestion wf g o with
         | Ret _ g' o' => Ret false g' o'
         | Panic g' o' => Panic g' o'
         end
  end.
Proof.
  unfold StartOrSkip, Start, bind, get, ret.
  destruct (Game.State g); try reflexivity.
  rewrite ChangeState_spec. reflexivity.
Qed.

Lemma Reveal_spec wf g o :
  let ps := map (fun player => if Player.Answered player then player
                               else Player.set_LastAwardedPoints player 0) (Game.Players g) in
  let g1 := Game.set_Players (Game.set_Time g 5) ps in
  let o1 := o ++ map (fun player => (Player.Connection player,
                                     PlayerRevealPacket (Player.LastAwardedPoints player))) ps in
  Reveal wf g o = Ret tt (Game.set_State g1 RevealState) (o1 ++ state_sends wf o1 g1 RevealState).
Proof.
  intros ps g1 o1. unfold Reveal, bind, modify, get.
  rewrite send_all_spec, ChangeState_spec. reflexivity.
Qed.

Lemma getLeaderboard_spec (sort_slice : forall A : Type, (A -> A -> bool) -> list A -> list A) g o :
  let players := sort_slice Player.t by_points_desc (Game.Players g) in
  getLeaderboard sort_slice g o =
  Ret (map (fun player => LeaderboardEntry.mk (Player.Name player) (Player.Points player))
           (firstn (Nat.min 3 (List.length players)) players))
      (Game.set_Players g players) o.
Proof. reflexivity. Qed.

Lemma Intermission_spec (sort_slice : forall A : Type, (A -> A -> bool) -> list A -> list A) wf g o :
  let players := sort_slice Player.t by_points_desc (Game.Players g) in
  Intermission sort_slice wf g o =
  Ret tt (Game.set_Players (Game.set_State (Game.set_Time g 30) IntermissionState) players)
      (o ++ state_sends wf o g IntermissionState
         ++ [(Game.Host g, LeaderboardPacket
               (map (fun player => LeaderboardEntry.mk (Player.Name player) (Player.Points player))
                    (firstn (Nat.min 3 (List.length players)) players)))]).
Proof.
  intros players. unfold Intermission, bind, modify, get, send, SendPacket, ret.
  rewrite ChangeState_spec. unfold bind. simpl. rewrite <- app_assoc. reflexivity.
Qed.

Lemma Tick_spec (sort_slice : forall A : Type, (A -> A -> bool) -> list A -> list A) wf g o :
  let g1 := Game.set_Time g (wrap64 (Game.Time g - 1)) in
  let o1 := o ++ [(Game.Host g, TickPacket (Game.Time g1))] in
  Tick sort_slice wf g o =
  if Game.Time g1 =? 0 then
    match Game.State g with
    | PlayState => Reveal wf g1 o1
    | RevealState => Intermission sort_slice wf g1 o1
    | IntermissionState => NextQuestion wf g1 o1
    | _ => Ret tt g1 o1
    end
  else Ret tt g1 o1.
Proof.
  intros g1 o1. unfold Tick, bind, modify, get, send, SendPacket, ret. simpl.
  destruct (_ =? 0); [destruct (Game.State g)|]; reflexivity.
Qed.

Lemma OnPlayerJoin_spec wf id name con g o :
  OnPlayerJoin wf id name con g o =
  Ret tt (Game.set_Players g (Game.Players g ++ [Player.mk id name con 0 0 false]))
      (o ++ [(con, ChangeGameStatePacket (Game.State g));
             (Game.Host g, PlayerJoinPacket (Player.mk id name con 0 0 false))]).
Proof.
  unfold OnPlayerJoin, bind, modify, get, send, SendPacket, ret. unfold bind. simpl.
  rewrite <- !app_assoc. reflexivity.
Qed.

Lemma OnPlayerDisconnect_spec wf player g o :
  OnPlayerDisconnect wf player g o =
  Ret tt (Game.set_Players g
            (filter (fun p => negb (Nat.eqb (Player.Id p) (Player.Id player))) (Game.Players g)))
      (o ++ [(Game.Host g, PlayerDisconnectPacket (Player.Id player))]).
Proof. reflexivity. Qed.

Lemma index_None {A} (l : list A) i :
  index l i = None <-> i < 0 \/ Z.of_nat (List.length l) <= i.
Proof.
  unfold index. destruct (Z.ltb_spec i 0) as [H|H].
  - split; [lia | reflexivity].
  - rewrite nth_error_None. lia.
Qed.

Lemma index_Some_lt {A} (l : list A) i x :
  index l i = Some x -> 0 <= i < Z.of_nat (List.length l).
Proof.
  intros H. destruct (Z.ltb_spec i 0) as [Hi|Hi].
  - unfold index in H. rewrite (proj2 (Z.ltb_lt _ _) Hi) in H. discriminate.
  - destruct (Z_lt_le_dec i (Z.of_nat (List.length l))) as [Hl|Hl]; [lia|].
    assert (Hn : index l i = None) by (apply index_None; lia). congruence.
Qed.

Lemma isCorrectChoice_spec choice g o :
  isCorrectChoice choice g o =
  match index (Quiz.Questions (Game.Quiz g)) (Game.CurrentQuestion g) with
  | Some q => Ret (choice_is_correct q choice) g o
  | None => Panic g o
  end.
Proof.
  unfold isCorrectChoice, getCurrentQuestion, bind, get, ret, panic.
  destruct index as [q|] eqn:Eq; [|reflexivity].
  unfold choice_is_correct.
  destruct ((choice <? 0) || (Z.of_nat (List.length (QuizQuestion.Choices q)) <=? choice)) eqn:E.
  - assert (Hn : index (QuizQuestion.Choices q) choice = None).
    { apply index_None. apply orb_true_iff in E.
      destruct E as [E|E]; [apply Z.ltb_lt in E | apply Z.leb_le in E]; lia. }
    rewrite Hn. reflexivity.
  - apply orb_false_iff in E. destruct E as [E1 E2].
    apply Z.ltb_ge in E1. apply Z.leb_gt in E2.
    destruct (index (QuizQuestion.Choices q) choice) eqn:Ec; [reflexivity|].
    apply index_None in Ec. lia.
Qed.

Lemma update_nth_compose {A} (f h : A -> A) i l :
  update_nth i f (update_nth i h l) = update_nth i (fun x => f (h x)) l.
Proof.
  revert i; induction l as [|x l IH]; intros [|i]; simpl; try reflexivity.
  rewrite IH. reflexivity.
Qed.

Lemma Players_set_Players g v : Game.Players (Game.set_Players g v) = v.
Proof. reflexivity. Qed.

Lemma set_Players_set_Players g v w :
  Game.set_Players (Game.set_Players g v) w = Game.set_Players g w.
Proof. reflexivity. Qed.

Lemma OnPlayerAnswer_spec wf choice pi g o :
  OnPlayerAnswer wf choice pi g o =
  match index (Quiz.Questions (Game.Quiz g)) (Game.CurrentQuestion g) with
  | Some q =>
      let g' := Game.set_Players g
                  (update_nth pi (answer_update (choice_is_correct q choice) (points_reward g))
                              (Game.Players g)) in
      (if Nat.eqb (List.length (getAnsweredPlayers g')) (List.length (Game.Players g'))
       then Reveal wf else ret tt) g' o
  | None => Panic g o
  end.
Proof.
  unfold OnPlayerAnswer, bind. rewrite isCorrectChoice_spec.
  destruct index as [q|]; [|reflexivity].
  unfold modify_player, getPointsReward, modify, get, ret.
  destruct (choice_is_correct q choice);
    cbn beta iota delta [bind modify get ret getPointsReward modify_player];
    rewrite ?Players_set_Players, ?set_Players_set_Players, ?update_nth_compose;
    reflexivity.
Qed.

(** ** Packets sent, Game fields *)

Ltac out_inv H :=
  repeat match type of H with
  | In _ (_ ++ _) => apply in_app_or in H; destruct H as [H|H]
  | In _ (map _ _) =>
      let y := fresh "y" in let Hy := fresh "Hy" in
      apply in_map_iff in H; destruct H as [y [H Hy]]; try discriminate H
  | In _ (_ :: _) => destruct H as [H|H]; [try discriminate H|]
  | In _ [] => destruct H
  | In _ (state_sends _ _ _ _) => apply state_sends_In in H
  end.

Ltac gsimpl :=
  cbn beta iota zeta delta [Game.set_State Game.set_Players Game.set_Time Game.set_Ended
       Game.set_CurrentQuestion lift
       Game.Host Game.State Game.Players Game.Time Game.Ended Game.CurrentQuestion Game.Quiz
       Game.Id Game.Code] in *.

Ltac shows_tac :=
  let c := fresh "c" in let q := fresh "q" in let H := fresh "H" in
  intros c q H; out_inv H; gsimpl; try congruence.

(** ** Game-level steps *)

(** A step keeps the host and sends [QuestionShow] only to it. *)
Lemma game_step_host sort wf e g tm :
  match game_step sort wf e g tm with
  | GOk g' _ o => Game.Host g' = Game.Host g /\ shows_only_to (Game.Host g) o
  | GCrash g' o => Game.Host g' = Game.Host g /\ shows_only_to (Game.Host g) o
  end.
Proof.
  destruct e; unfold game_step.
  - rewrite StartOrSkip_spec.
    destruct (Game.State g); rewrite NextQuestion_spec;
      gsimpl; (destruct (_ <=? _); [rewrite End_spec | destruct index]);
      gsimpl; split; try reflexivity; shows_tac.
  - unfold lift. rewrite OnPlayerAnswer_spec. destruct index; gsimpl.
    + destruct (Nat.eqb _ _); [rewrite Reveal_spec|]; unfold ret; gsimpl; split; try reflexivity; shows_tac.
    + split; [reflexivity|]; shows_tac.
  - unfold lift. rewrite OnPlayerJoin_spec. gsimpl. split; [reflexivity|]; shows_tac.
  - unfold lift. rewrite OnPlayerDisconnect_spec. gsimpl. split; [reflexivity|]; shows_tac.
  - destruct tm; try (split; [reflexivity|]; shows_tac).
    unfold lift. rewrite Tick_spec. gsimpl.
    destruct (_ =? 0); [destruct (Game.State g)|]; 
      try rewrite Reveal_spec; try rewrite Intermission_spec; try rewrite NextQuestion_spec;
      gsimpl; try (destruct (_ <=? _); [rewrite End_spec | destruct index]);
      gsimpl; split; try reflexivity; shows_tac.
Qed.












(** ** Net-level steps *)

Lemma update_nth_In {A} (f : A -> A) i l x :
  nth_error l i = Some x -> In (f x) (update_nth i f l).
Proof.
  revert i; induction l as [|y l IH]; intros [|i] H; simpl in *; try discriminate.
  - injection H as ->. left; reflexivity.
  - right. apply IH, H.
Qed.

Lemma step_game_hosts sort wf gi e games :
  match step_game sort wf gi e games with
  | NOk games' o => shows_to_hosts games' o
  | NCrash games' o => shows_to_hosts games' o
  end.
Proof.
  unfold step_game.
  destruct (nth_error games gi) as [[g tm]|] eqn:Eg; [|intros c q []].
  pose proof (game_step_host sort wf e g tm) as Hh.
  destruct (game_step sort wf e g tm) as [g' tm' o|g' o]; destruct Hh as [Hhost Hs];
    intros c q Hin; specialize (Hs c q Hin).
  - exists g', tm'. split; [apply (update_nth_In (fun _ => (g', tm')) gi games (g, tm) Eg) | congruence].
  - exists g', tm. split; [apply (update_nth_In (fun _ => (g', tm)) gi games (g, tm) Eg) | congruence].
Qed.

(** ** Sorting *)

Lemma insert_by_perm {A} (lt : A -> A -> bool) x l : Permutation (insert_by lt x l) (x :: l).
Proof.
  induction l as [|y l IH]; simpl; [reflexivity|].
  destruct (lt x y); [reflexivity|].
  rewrite IH. apply perm_swap.
Qed.

Lemma insertion_sort_perm {A} (lt : A -> A -> bool) l : Permutation (insertion_sort lt l) l.
Proof.
  induction l as [|x l IH]; simpl; [reflexivity|].
  rewrite insert_by_perm. apply perm_skip, IH.
Qed.

Lemma insert_by_sorted x l :
  Sorted (fun a b => Player.Points b <= Player.Points a) l ->
  Sorted (fun a b => Player.Points b <= Player.Points a) (insert_by by_points_desc x l).
Proof.
  induction 1 as [|y l Hs IH Hd]; simpl.
  - repeat constructor.
  - unfold by_points_desc at 1. destruct (Z.ltb_spec (Player.Points y) (Player.Points x)).
    + constructor; [constructor; assumption | constructor; lia].
    + constructor; [exact IH|].
      destruct l as [|z l]; simpl.
      * constructor; lia.
      * unfold by_points_desc at 1. destruct (Z.ltb_spec (Player.Points z) (Player.Points x)).
        -- constructor; lia.
        -- inversion Hd; subst. constructor; assumption.
Qed.

Lemma insertion_sort_sorted l :
  Sorted (fun a b => Player.Points b <= Player.Points a) (insertion_sort by_points_desc l).
Proof. induction l as [|x l IH]; simpl; [constructor | apply insert_by_sorted, IH]. Qed.

Lemma stable_sort_slice_sorts : sorts_by_points stable_sort_slice.
Proof.
  intros l. unfold stable_sort_slice. split.
  - rewrite insertion_sort_perm. symmetry. apply Permutation_rev.
  - apply insertion_sort_sorted.
Qed.

Lemma Sorted_firstn {A} (R : A -> A -> Prop) n l : Sorted R l -> Sorted R (firstn n l).
Proof.
  intros H. revert n. induction H as [|x l Hs IH Hd]; intros [|n]; simpl; try constructor.
  - apply IH.
  - destruct Hd as [|y l' Hxy]; destruct n; simpl; constructor; assumption.
Qed.

Lemma Sorted_map {A B} (R : B -> B -> Prop) (f : A -> B) l :
  Sorted (fun x y => R (f x) (f y)) l -> Sorted R (map f l).
Proof.
  induction 1 as [|x l Hs IH Hd]; simpl; constructor; [exact IH|].
  destruct Hd; simpl; constructor; assumption.
Qed.

Lemma StronglySorted_app {A} (R : A -> A -> Prop) l1 l2 x y :
  StronglySorted R (l1 ++ l2) -> In x l1 -> In y l2 -> R x y.
Proof.
  induction l1 as [|z l1 IH]; simpl; intros H Hx Hy; [destruct Hx|].
  inversion H as [|? ? Hs Hall]; subst.
  destruct Hx as [<-|Hx].
  - rewrite Forall_forall in Hall. apply Hall, in_or_app. right; exact Hy.
  - apply IH; assumption.
Qed.

(** ** The reference codec *)

Lemma escape_byte_parse b f r :
  (Byte.to_nat b < 128)%nat ->
  JsonRef.parse_chars (S f) (JsonRef.escape_byte b ++ r) =
  match JsonRef.parse_chars f r with
  | Some (s, r') => Some (b :: s, r')
  | None => None
  end.
Proof. destruct b; intros H; (reflexivity || (cbv in H; lia)). Qed.

Lemma escape_byte_length b : (1 <= List.length (JsonRef.escape_byte b))%nat.
Proof. destruct b; cbv; lia. Qed.

Lemma parse_escaped l r f :
  Forall (fun b => Byte.to_nat b < 128)%nat l ->
  (List.length (flat_map JsonRef.escape_byte l) < f)%nat ->
  JsonRef.parse_chars f (flat_map JsonRef.escape_byte l ++ x22 :: r) = Some (l, r).
Proof.
  revert f. induction l as [|b l IH]; intros f Hl Hf; (destruct f as [|f]; [simpl in Hf; lia|]).
  - reflexivity.
  - inversion Hl as [|? ? Hb Hl']; subst.
    simpl flat_map. rewrite <- app_assoc, escape_byte_parse by exact Hb.
    simpl flat_map in Hf. rewrite length_app in Hf.
    pose proof (escape_byte_length b).
    rewrite IH by (assumption || lia). reflexivity.
Qed.

Lemma hex_val_lt b d : JsonRef.hex_val b = Some d -> (d < 16)%nat.
Proof.
  unfold JsonRef.hex_val.
  destruct (Nat.leb_spec 48 (Byte.to_nat b)), (Nat.leb_spec (Byte.to_nat b) 57),
           (Nat.leb_spec 97 (Byte.to_nat b)), (Nat.leb_spec (Byte.to_nat b) 102),
           (Nat.leb_spec 65 (Byte.to_nat b)), (Nat.leb_spec (Byte.to_nat b) 70);
    simpl; intros Hd; try discriminate; injection Hd as <-; lia.
Qed.

Lemma unescape_ascii l c r : JsonRef.unescape l = Some (c, r) -> (Byte.to_nat c < 128)%nat.
Proof.
  unfold JsonRef.unescape. destruct l as [|e l]; [discriminate|].
  repeat match goal with
         | |- (if Byte.eqb e ?x then _ else _) = _ -> _ =>
             destruct (Byte.eqb e x); [intros H; injection H as <- _; cbv; lia|]
         end.
  destruct (Byte.eqb e x75); [|discriminate].
  destruct l as [|h1 [|h2 [|h3 [|h4 l]]]]; try discriminate.
  destruct (JsonRef.hex_val h1) as [[|]|]; try discriminate.
  destruct (JsonRef.hex_val h2) as [[|]|]; try discriminate.
  destruct (JsonRef.hex_val h3) as [d3|] eqn:E3; try discriminate.
  destruct (JsonRef.hex_val h4) as [d4|] eqn:E4; try discriminate.
  apply hex_val_lt in E4.
  destruct (Nat.ltb_spec d3 8); [|discriminate].
  destruct (Byte.of_nat (16 * d3 + d4)) as [c'|] eqn:Ec; [|discriminate].
  simpl. intros Hs; injection Hs as <- _. apply Byte.to_of_nat in Ec. lia.
Qed.

Lemma parse_chars_ascii f l s r :
  JsonRef.parse_chars f l = Some (s, r) -> Forall (fun b => Byte.to_nat b < 128)%nat s.
Proof.
  revert l s r; induction f as [|f IH]; intros l s r H; [discriminate|].
  simpl in H. destruct l as [|b l]; [discriminate|].
  destruct (Byte.eqb b x22); [injection H as <- _; constructor|].
  destruct (Byte.eqb b x5c).
  - destruct (JsonRef.unescape l) as [[c r0]|] eqn:Eu; [|discriminate].
    destruct (JsonRef.parse_chars f r0) as [[s0 r1]|] eqn:Ep; [|discriminate].
    injection H as <- _. constructor; [eapply unescape_ascii; exact Eu | eapply IH; exact Ep].
  - destruct (JsonRef.printable b) eqn:Epr; [|discriminate].
    destruct (JsonRef.parse_chars f l) as [[s0 r1]|] eqn:Ep; [|discriminate].
    injection H as <- _. constructor; [|eapply IH; exact Ep].
    unfold JsonRef.printable in Epr. apply andb_true_iff in Epr. destruct Epr as [_ Epr].
    apply Nat.ltb_lt in Epr. exact Epr.
Qed.

Lemma parse_value_ascii l v r :
  JsonRef.parse_value l = Some (v, r) ->
  match v with
  | JsonRef.JString bs => Forall (fun b => Byte.to_nat b < 128)%nat bs
  | JsonRef.JNumber _ => True
  end.
Proof.
  unfold JsonRef.parse_value. destruct l as [|b l]; [discriminate|].
  destruct (Byte.eqb b x22).
  - destruct (JsonRef.parse_chars _ l) as [[s r0]|] eqn:E; simpl; [|discriminate].
    intros H; injection H as <- _. eapply parse_chars_ascii; exact E.
  - destruct (JsonRef.parse_int _) as [[z r0]|]; simpl; [|discriminate].
    intros H; injection H as <- _. exact I.
Qed.

Lemma parse_members_ascii f l ms r :
  JsonRef.parse_members f l = Some (ms, r) ->
  Forall (fun kv => match snd kv with
                    | JsonRef.JString bs => Forall (fun b => Byte.to_nat b < 128)%nat bs
                    | JsonRef.JNumber _ => True
                    end) ms.
Proof.
  revert l ms r; induction f as [|f IH]; intros l ms r H; [discriminate|].
  cbn [JsonRef.parse_members] in H.
  destruct (JsonRef.expect x22 l) as [l1|]; [|discriminate].
  destruct (JsonRef.parse_chars _ l1) as [[k l2]|]; [|discriminate].
  destruct (JsonRef.expect x3a l2) as [l3|]; [|discriminate].
  destruct (JsonRef.parse_value (JsonRef.skip_ws l3)) as [[v l4]|] eqn:Ev; [|discriminate].
  apply parse_value_ascii in Ev.
  destruct (JsonRef.skip_ws l4) as [|b l5]; [discriminate|].
  destruct (Byte.eqb b x2c).
  - destruct (JsonRef.parse_members f l5) as [[ms0 r0]|] eqn:Em; simpl in H; [|discriminate].
    injection H as <- _. constructor; [exact Ev | eapply IH; exact Em].
  - destruct (Byte.eqb b x7d); [|discriminate].
    injection H as <- _. constructor; [exact Ev | constructor].
Qed.

Lemma parse_object_ascii l ms :
  JsonRef.parse_object l = Some ms ->
  Forall (fun kv => match snd kv with
                    | JsonRef.JString bs => Forall (fun b => Byte.to_nat b < 128)%nat bs
                    | JsonRef.JNumber _ => True
                    end) ms.
Proof.
  unfold JsonRef.parse_object. destruct (JsonRef.expect x7b l) as [l1|]; [|discriminate].
  destruct (JsonRef.expect x7d l1) as [l2|].
  - destruct (JsonRef.skip_ws l2); [|discriminate]. intros H; injection H as <-. constructor.
  - destruct (JsonRef.parse_members _ l1) as [[ms0 r]|] eqn:Em; [|discriminate].
    destruct (JsonRef.skip_ws r); [|discriminate]. intros H; injection H as <-.
    eapply parse_members_ascii; exact Em.
Qed.

Lemma field_In key ms v : JsonRef.field key ms = Some v -> exists k, In (k, v) ms.
Proof.
  unfold JsonRef.field.
  assert (G : forall acc, fold_left (fun acc kv =>
                if JsonRef.fold_eq (fst kv) (list_byte_of_string key) then Some (snd kv) else acc)
                ms acc = Some v -> acc = Some v \/ exists k, In (k, v) ms).
  { induction ms as [|[k0 v0] ms IH]; intros acc H; simpl in H; [left; exact H|].
    destruct (IH _ H) as [Ha|[k Hk]].
    - destruct (JsonRef.fold_eq k0 _); [|left; exact Ha].
      injection Ha as ->. right. exists k0. left; reflexivity.
    - right. exists k. right; exact Hk. }
  intros H. destruct (G None H) as [Hn|Hk]; [discriminate|exact Hk].
Qed.

Lemma unmarshal_HostGame_ascii d s :
  JsonRef.unmarshal_HostGame d = Some s ->
  Forall (fun b => Byte.to_nat b < 128)%nat (list_byte_of_string s).
Proof.
  unfold JsonRef.unmarshal_HostGame, JsonRef.string_field.
  destruct (JsonRef.parse_object d) as [ms|] eqn:Eo; [|discriminate].
  apply parse_object_ascii in Eo.
  destruct (JsonRef.field "quizId" ms) as [[bs|z]|] eqn:Ef; intros H; try discriminate.
  - injection H as <-. rewrite list_byte_of_string_of_list_byte.
    apply field_In in Ef. destruct Ef as [k Hk].
    rewrite Forall_forall in Eo. exact (Eo _ Hk).
  - injection H as <-. constructor.
Qed.

Lemma marshal_HostGame_shape s :
  JsonRef.marshal (HostGamePacket s) =
  x7b :: x22 :: flat_map JsonRef.escape_byte (list_byte_of_string "quizId") ++
      x22 :: x3a :: x22 :: flat_map JsonRef.escape_byte (list_byte_of_string s) ++ [x22; x7d].
Proof.
  unfold JsonRef.marshal, JsonRef.obj, JsonRef.str, JsonRef.quote. cbn [map fst snd JsonRef.join].
  cbn [app]. rewrite <- !app_assoc. cbn [app]. rewrite <- !app_assoc. reflexivity.
Qed.

Lemma unmarshal_marshal_HostGame s :
  Forall (fun b => Byte.to_nat b < 128)%nat (list_byte_of_string s) ->
  JsonRef.unmarshal_HostGame (JsonRef.marshal (HostGamePacket s)) = Some s.
Proof.
  intros Ha. rewrite marshal_HostGame_shape.
  remember (flat_map JsonRef.escape_byte (list_byte_of_string "quizId")) as ek eqn:Hek.
  remember (flat_map JsonRef.escape_byte (list_byte_of_string s)) as e eqn:He.
  unfold JsonRef.unmarshal_HostGame, JsonRef.parse_object.
  cbn -[JsonRef.parse_chars].
  rewrite Hek at 2. rewrite parse_escaped.
  2: { rewrite Forall_forall. intros b Hb. cbn in Hb.
       repeat (destruct Hb as [<-|Hb]; [cbv; lia|]). destruct Hb. }
  2: { rewrite Hek. rewrite length_app. cbn. lia. }
  cbn -[JsonRef.parse_chars].
  rewrite He at 2. rewrite parse_escaped by (exact Ha || (subst e; rewrite length_app; cbn; lia)).
  cbn -[string_of_list_byte].
  rewrite string_of_list_byte_of_string. reflexivity.
Qed.

Lemma json_ref_HostGame_law d s :
  Unmarshal_HostGame json_ref d = Some s ->
  Unmarshal_HostGame json_ref (Marshal json_ref (HostGamePacket s)) = Some s.
Proof.
  intros H. apply unmarshal_marshal_HostGame. eapply unmarshal_HostGame_ascii. exact H.
Qed.

Lemma json_ref_Marshal_nonempty p : Marshal json_ref p <> [].
Proof. destruct p; discriminate. Qed.

(** ** Answers *)

Lemma nth_error_update_nth {A} (f : A -> A) i l x :
  nth_error l i = Some x -> nth_error (update_nth i f l) i = Some (f x).
Proof.
  revert i; induction l as [|y l IH]; intros [|i] H; simpl in *; try discriminate.
  - injection H as ->. reflexivity.
  - apply IH, H.
Qed.

Lemma answer_update_Answered c r p : Player.Answered (answer_update c r p) = true.
Proof. destruct c; reflexivity. Qed.

(** The player [pi] after [OnPlayerAnswer], when the question index is valid. *)
Lemma OnPlayerAnswer_player wf choice pi g o p q :
  nth_error (Game.Players g) pi = Some p ->
  index (Quiz.Questions (Game.Quiz g)) (Game.CurrentQuestion g) = Some q ->
  match OnPlayerAnswer wf choice pi g o with
  | Ret _ g' _ =>
      nth_error (Game.Players g') pi =
      Some (answer_update (choice_is_correct q choice) (points_reward g) p)
  | Panic _ _ => False
  end.
Proof.
  intros Hp Hq. rewrite OnPlayerAnswer_spec, Hq.
  set (u := answer_update (choice_is_correct q choice) (points_reward g)).
  assert (Hu : nth_error (update_nth pi u (Game.Players g)) pi = Some (u p))
    by (apply nth_error_update_nth; exact Hp).
  cbv zeta.
  lazymatch goal with |- context [if ?b then _ else _] => destruct b end.
  - rewrite Reveal_spec. gsimpl. rewrite nth_error_map, Hu. unfold option_map, u. rewrite answer_update_Answered. reflexivity.
  - unfold ret. gsimpl. exact Hu.
Qed.

(** The reward is exact while the remaining time is far from the int64 bounds. *)
Lemma points_reward_exact g :
  Z.abs (Game.Time g) <= 2 ^ 50 ->
  points_reward g =
  5000 - 1000 * Z.min 4 (Z.of_nat (List.length (getAnsweredPlayers g))) + Game.Time g * 16.
Proof.
  intros Ht. unfold points_reward.
  change (1000 / 60) with 16.
  rewrite (wrap64_id (Game.Time g * 16)) by (unfold in_int64; lia).
  apply wrap64_id. unfold in_int64. lia.
Qed.


(** * Claims *)

(** ** C1 *)

(** C1 (counterexample): in a reachable run (six players join, the host
    starts a 60-second question, 30 seconds pass), the first correct
    respondent is awarded 5480 points, not 5500:
    the time bonus is [30 * (1000 / 60) = 30 * 16]. *)
Lemma C1_first_respondent_5480 :
  let '(g, _, _, crashed) :=
    game_run go_sort_slice never_fails scoring_run (game0 one_question_quiz) TimerOff in
  crashed = false /\ Game.Time g = 30 /\
  option_map Player.LastAwardedPoints (nth_error (Game.Players g) 0) = Some 5480 /\
  option_map Player.LastAwardedPoints (nth_error (Game.Players g) 0) <> Some 5500.
Proof.
  vm_compute. split; [reflexivity|]. split; [reflexivity|]. split; [reflexivity|].
  intros H. discriminate H.
Qed.

(** C1: a QuestionAnswer from player [pi] on a valid current question
    awards [5000 - 1000 * min 4 k + Time * 16] when the chosen choice is in
    range and correct, [k] being the number of players whose answered flag
    is set before this answer, and 0 otherwise; for a 60-second question
    answered with 30 seconds left the 1st, 2nd, 5th and 6th respondents get
    5480, 4480, 1480 and 1480 points and a wrong choice gets 0. *)
Theorem C1_answer_reward wf choice pi g p q :
  nth_error (Game.Players g) pi = Some p ->
  index (Quiz.Questions (Game.Quiz g)) (Game.CurrentQuestion g) = Some q ->
  Z.abs (Game.Time g) <= 2 ^ 50 ->
  (match OnPlayerAnswer wf choice pi g [] with
   | Ret _ g' _ =>
       exists p', nth_error (Game.Players g') pi = Some p' /\
       Player.LastAwardedPoints p' =
       (if choice_is_correct q choice
        then 5000 - 1000 * Z.min 4 (Z.of_nat (List.length (getAnsweredPlayers g)))
             + Game.Time g * 16
        else 0)
   | Panic _ _ => False
   end) /\
  award 0 0 (scoring_game 0) = Some 5480 /\ award 0 1 (scoring_game 1) = Some 4480 /\
  award 0 4 (scoring_game 4) = Some 1480 /\ award 0 5 (scoring_game 5) = Some 1480 /\
  award 1 0 (scoring_game 0) = Some 0.
Proof.
  intros Hp Hq Ht.
  split; [| vm_compute; repeat split; reflexivity].
  pose proof (OnPlayerAnswer_player wf choice pi g [] p q Hp Hq) as H.
  destruct (OnPlayerAnswer wf choice pi g []) as [u g' o'|g' o']; [|destruct H].
  exists (answer_update (choice_is_correct q choice) (points_reward g) p).
  split; [exact H|].
  rewrite <- points_reward_exact by exact Ht.
  destruct (choice_is_correct q choice); reflexivity.
Qed.

Lemma C1_answer_reward_witness :
  Z.abs (Game.Time (scoring_game 0)) <= 2 ^ 50 /\
  match OnPlayerAnswer no_fail 0 0 (scoring_game 0) [] with
  | Ret _ g' _ =>
      exists p', nth_error (Game.Players g') 0 = Some p' /\
      Player.LastAwardedPoints p' = 5000 - 1000 * Z.min 4 0 + 30 * 16
  | Panic _ _ => False
  end.
Proof.
  split; [vm_compute; discriminate|].
  exact (proj1 (C1_answer_reward no_fail 0 0 (scoring_game 0) (player 0 0 false) (question 60)
                  eq_refl eq_refl ltac:(vm_compute; discriminate))).
Defined.

(** ** C2 *)

(** C2 (counterexample): with the JSON codec [json_ref], the message
    [msg_host "q1"] decodes to a pointer to the HostGame packet, which
    [PacketToBytes] cannot encode, so decoded packets are not re-encoded. *)
Lemma C2_decoded_host_not_encodable :
  decodePacket json_ref (msg_host "q1") = Some (Ptr (HostGamePacket "q1")) /\
  PacketToBytes json_ref (Ptr (HostGamePacket "q1")) = None /\
  ~ roundtrips json_ref.
Proof.
  split; [vm_compute; reflexivity|]. split; [reflexivity|].
  intros H. destruct (H (msg_host "q1") (Ptr (HostGamePacket "q1"))) as [m [Hm _]].
  - vm_compute. reflexivity.
  - discriminate Hm.
Qed.

(** C2: for every JSON codec, a packet the decoder yields is a pointer to
    a Connect, HostGame, StartGame or QuestionAnswer struct, and
    [PacketToBytes] fails on it with "invalid packet type", since the type
    switch of packetToPacketId lists struct values only: no decoded packet
    of any kind is re-encoded. *)
Theorem C2_decoded_not_encodable (json : JsonCodec) msg a :
  decodePacket json msg = Some a ->
  PacketToBytes json a = None /\
  exists p, a = Ptr p /\
    match p with
    | ConnectPacket _ _ | HostGamePacket _ | StartGamePacket | QuestionAnswerPacket _ => True
    | _ => False
    end.
Proof.
  unfold decodePacket.
  destruct (Nat.ltb _ 2); [discriminate|].
  destruct msg as [|tag data]; [discriminate|].
  destruct (packetIdToPacket tag) as [z|] eqn:Ez; [|discriminate].
  assert (Hz : exists p, z = Ptr p /\
            match p with
            | ConnectPacket _ _ | HostGamePacket _ | StartGamePacket | QuestionAnswerPacket _ => True
            | _ => False
            end)
    by (destruct tag; try discriminate Ez; injection Ez as <-; eexists; split; reflexivity || exact I).
  destruct Hz as [p [-> Hp]].
  destruct p; try destruct Hp; cbn [unmarshal].
  - destruct (Unmarshal_Connect json data); cbn; intros H; [|discriminate H].
    injection H as <-. split; [reflexivity|]. eexists; split; [reflexivity|exact I].
  - destruct (Unmarshal_HostGame json data); cbn; intros H; [|discriminate H].
    injection H as <-. split; [reflexivity|]. eexists; split; [reflexivity|exact I].
  - destruct (Unmarshal_StartGame json data); cbn; intros H; [|discriminate H].
    injection H as <-. split; [reflexivity|]. eexists; split; [reflexivity|exact I].
  - destruct (Unmarshal_QuestionAnswer json data); cbn; intros H; [|discriminate H].
    injection H as <-. split; [reflexivity|]. eexists; split; [reflexivity|exact I].
Qed.

Lemma C2_decoded_not_encodable_witness :
  decodePacket json_ref (msg_host "q1") = Some (Ptr (HostGamePacket "q1")) /\
  PacketToBytes json_ref (Ptr (HostGamePacket "q1")) = None.
Proof.
  split; [vm_compute; reflexivity|].
  exact (proj1 (C2_decoded_not_encodable json_ref (msg_host "q1") (Ptr (HostGamePacket "q1"))
                  ltac:(vm_compute; reflexivity))).
Defined.

(** ** C8 *)

Lemma packetIdToPacket_In tag z :
  packetIdToPacket tag = Some z -> In tag [x00; x01; x05; x07].
Proof. destruct tag; simpl; intros H; try discriminate H; intuition. Qed.

(** C8: [decodePacket] yields a packet exactly when the message has at
    least two bytes, its first byte is a client tag (0, 1, 5 or 7) and the
    rest unmarshals into that packet kind; when it yields nothing, the
    message is dropped: no packet is sent and no Game changes. *)
Theorem C8_decode_contract sort json fetch wf con msg id code games p :
  (decodePacket json msg = Some p <->
   (2 <= List.length msg)%nat /\
   exists tag data z, msg = tag :: data /\ In tag [x00; x01; x05; x07] /\
     packetIdToPacket tag = Some z /\ unmarshal json data z = Some p) /\
  (decodePacket json msg = None ->
   net_step sort json fetch wf (EvMessage con msg id code) games = NOk games []).
Proof.
  split.
  - unfold decodePacket. split.
    + destruct (Nat.ltb_spec (List.length msg) 2) as [Hl|Hl]; [discriminate|].
      destruct msg as [|tag data]; [discriminate|].
      destruct (packetIdToPacket tag) as [z|] eqn:Ht; [|discriminate].
      intros H. split; [exact Hl|].
      exists tag, data, z. split; [reflexivity|].
      split; [exact (packetIdToPacket_In tag z Ht)|]. split; [exact Ht|exact H].
    + intros [Hl [tag [data [z [-> [_ [Ht Hu]]]]]]].
      destruct (Nat.ltb_spec (List.length (tag :: data)) 2) as [Hl'|Hl']; [lia|].
      rewrite Ht. exact Hu.
  - intros H. unfold net_step, OnIncomingMessage. rewrite H. reflexivity.
Qed.

Lemma C8_decode_contract_witness :
  decodePacket json_ref msg_start = Some (Ptr StartGamePacket) /\
  net_step go_sort_slice json_ref (fetch_one one_question_quiz) no_fail
           (EvMessage 10%nat [x05] 0%nat EmptyString) [] = NOk [] [].
Proof.
  split.
  - apply (proj2 (proj1 (C8_decode_contract go_sort_slice json_ref (fetch_one one_question_quiz)
                           no_fail 10%nat msg_start 0%nat EmptyString [] (Ptr StartGamePacket)))).
    split; [vm_compute; lia|].
    exists x05, (JsonRef.obj []), (Ptr StartGamePacket).
    split; [reflexivity|]. split; [simpl; intuition|]. split; vm_compute; reflexivity.
  - apply (proj2 (C8_decode_contract go_sort_slice json_ref (fetch_one one_question_quiz)
                    no_fail 10%nat [x05] 0%nat EmptyString [] (Ptr StartGamePacket))).
    reflexivity.
Defined.

(** ** C3 *)

(** C3: once the Game is in the End state with its index past the last
    question, a StartGame from the host still runs [NextQuestion]: the
    index grows by one and the state stays End. Starting a one-question
    quiz and skipping twice leaves the index at 2, past the question
    count 1, with no crash. *)
Theorem C3_skip_after_end sort wf g tm :
  Game.State g = EndState ->
  Z.of_nat (List.length (Quiz.Questions (Game.Quiz g))) <= Game.CurrentQuestion g ->
  Game.CurrentQuestion g < 2 ^ 63 - 1 ->
  (match game_step sort wf GStartOrSkip g tm with
   | GOk g' tm' _ =>
       Game.State g' = EndState /\ tm' = tm /\
       Game.CurrentQuestion g' = Game.CurrentQuestion g + 1
   | GCrash _ _ => False
   end) /\
  (let '(g', _, _, crashed) :=
     game_run go_sort_slice never_fails [GStartOrSkip; GStartOrSkip; GStartOrSkip]
              (game0 one_question_quiz) TimerOff in
   crashed = false /\ Game.CurrentQuestion g' = 2 /\
   Z.of_nat (List.length (Quiz.Questions (Game.Quiz g'))) = 1).
Proof.
  intros Hs Hl Hc. split; [|vm_compute; repeat split; reflexivity].
  unfold game_step. rewrite StartOrSkip_spec, Hs, NextQuestion_spec. cbv zeta. gsimpl.
  rewrite (wrap64_id (Game.CurrentQuestion g + 1)) by (unfold in_int64; lia).
  destruct (Z.leb_spec (Z.of_nat (List.length (Quiz.Questions (Game.Quiz g))))
                       (Game.CurrentQuestion g + 1)) as [_|Hn]; [|lia].
  rewrite End_spec. gsimpl. split; [reflexivity|]. split; reflexivity.
Qed.

Lemma C3_skip_after_end_witness :
  fst (fst (fst (game_run go_sort_slice never_fails [GStartOrSkip; GStartOrSkip]
                          (game0 one_question_quiz) TimerOff))) = ended_game /\
  match game_step go_sort_slice no_fail GStartOrSkip ended_game TimerOff with
  | GOk g' tm' _ =>
      Game.State g' = EndState /\ tm' = TimerOff /\
      Game.CurrentQuestion g' = Game.CurrentQuestion ended_game + 1
  | GCrash _ _ => False
  end.
Proof.
  split; [vm_compute; reflexivity|].
  destruct (C3_skip_after_end go_sort_slice no_fail ended_game TimerOff
              ltac:(vm_compute; reflexivity) ltac:(vm_compute; discriminate)
              ltac:(vm_compute; reflexivity)) as [H _].
  exact H.
Defined.

(** ** C4 *)

(** C4: a QuestionAnswer is handled by indexing the questions with the
    current index, whatever the state: when that index is not a valid
    question (in the lobby it is -1, after the End it is past the last
    question) the handler panics. Over the network, a player who joins and
    answers in the lobby crashes the server; a player answering after the
    End crashes it too. *)
Theorem C4_answer_outside_question_panics wf choice pi g o :
  index (Quiz.Questions (Game.Quiz g)) (Game.CurrentQuestion g) = None ->
  OnPlayerAnswer wf choice pi g o = Panic g o /\
  (let '(_, _, crashed) :=
     net_run go_sort_slice json_ref (fetch_one one_question_quiz) never_fails
             lobby_answer_events [] in
   crashed = true) /\
  (let '(_, _, crashed) :=
     game_run go_sort_slice never_fails (joins 1 ++ [GStartOrSkip; GStartOrSkip; GAnswer 0 0])
              (game0 one_question_quiz) TimerOff in
   crashed = true).
Proof.
  intros Hq. split; [|split; vm_compute; reflexivity].
  rewrite OnPlayerAnswer_spec, Hq. reflexivity.
Qed.

Lemma C4_answer_outside_question_panics_witness :
  OnPlayerAnswer no_fail 0 0 (game0 one_question_quiz) [] = Panic (game0 one_question_quiz) [].
Proof.
  exact (proj1 (C4_answer_outside_question_panics no_fail 0 0%nat (game0 one_question_quiz) []
                  ltac:(vm_compute; reflexivity))).
Defined.

(** ** C5 *)




(** ** C6 *)

(** C6 (counterexample): three players tie at 10 points, in roster order
    [k], [l], [m]; the leaderboard built with Go's [sort.Slice] (pattern
    defeating quicksort, not stable) lists them [k], [m], [l]. *)
Lemma C6_tie_order_not_stable :
  map LeaderboardEntry.Name (leaderboard_of go_sort_slice tie_game) = ["k"; "m"; "l"]%string /\
  map Player.Name (filter (fun p => Player.Points p =? 10) (Game.Players tie_game))
  = ["k"; "l"; "m"]%string.
Proof. split; vm_compute; reflexivity. Qed.

(** C6: with a sort that orders the roster by points, highest first, the
    leaderboard has [min 3 n] entries for [n] players, in non-increasing
    order of points; it lists the first three players of the sorted
    roster, which is stored back into the Game as a permutation of the
    roster, and no player left out has more points than a listed one. *)
Theorem C6_leaderboard sort (Hsort : sorts_by_points sort) g o :
  match getLeaderboard sort g o with
  | Ret lb g' o' =>
      List.length lb = Nat.min 3 (List.length (Game.Players g)) /\
      Sorted (fun a b => LeaderboardEntry.Points b <= LeaderboardEntry.Points a) lb /\
      lb = map (fun p => LeaderboardEntry.mk (Player.Name p) (Player.Points p))
               (firstn 3 (Game.Players g')) /\
      Permutation (Game.Players g') (Game.Players g) /\
      (forall e p, In e lb -> In p (skipn 3 (Game.Players g')) ->
                   Player.Points p <= LeaderboardEntry.Points e) /\
      o' = o
  | Panic _ _ => False
  end.
Proof.
  rewrite getLeaderboard_spec. cbv zeta.
  set (ps := sort Player.t by_points_desc (Game.Players g)).
  destruct (Hsort (Game.Players g)) as [Hp Hs]. fold ps in Hp, Hs.
  rewrite Players_set_Players.
  assert (Hf : firstn (Nat.min 3 (List.length ps)) ps = firstn 3 ps).
  { destruct (Nat.le_ge_cases 3 (List.length ps)) as [H3|H3].
    - rewrite Nat.min_l by exact H3. reflexivity.
    - rewrite Nat.min_r by exact H3. rewrite firstn_all, firstn_all2 by exact H3.
      reflexivity. }
  rewrite Hf.
  split; [rewrite length_map, length_firstn, (Permutation_length Hp); reflexivity|].
  split; [apply Sorted_map, Sorted_firstn, Hs|].
  split; [reflexivity|]. split; [exact Hp|]. split; [|reflexivity].
  intros e p He Hq. apply in_map_iff in He. destruct He as [x [<- Hx]].
  cbn [LeaderboardEntry.Points].
  apply (StronglySorted_app (fun x y => Player.Points y <= Player.Points x)
           (firstn 3 ps) (skipn 3 ps) x p); [|exact Hx|exact Hq].
  rewrite firstn_skipn. apply Sorted_StronglySorted; [|exact Hs].
  intros a b c H1 H2. lia.
Qed.

Lemma C6_leaderboard_witness :
  map LeaderboardEntry.Name (leaderboard_of stable_sort_slice tie_game) = ["k"; "l"; "m"]%string /\
  match getLeaderboard stable_sort_slice tie_game [] with
  | Ret lb g' o' =>
      List.length lb = Nat.min 3 (List.length (Game.Players tie_game)) /\
      Sorted (fun a b => LeaderboardEntry.Points b <= LeaderboardEntry.Points a) lb /\
      lb = map (fun p => LeaderboardEntry.mk (Player.Name p) (Player.Points p))
               (firstn 3 (Game.Players g')) /\
      Permutation (Game.Players g') (Game.Players tie_game) /\
      (forall e p, In e lb -> In p (skipn 3 (Game.Players g')) ->
                   Player.Points p <= LeaderboardEntry.Points e) /\
      o' = []
  | Panic _ _ => False
  end.
Proof.
  split; [vm_compute; reflexivity|].
  pose proof (C6_leaderboard stable_sort_slice stable_sort_slice_sorts tie_game []) as H.
  exact H.
Defined.

(** ** C7 *)

(** C7 (counterexample): players 0 and 1 join in that order; player 1
    answers right and player 0 wrong; when the reveal countdown runs out,
    the leaderboard is computed and the roster becomes [1; 0]. *)
Lemma C7_leaderboard_reorders_roster :
  let '(g, _, _, crashed) :=
    game_run go_sort_slice never_fails reorder_run (game0 one_question_quiz) TimerOff in
  crashed = false /\ Game.State g = IntermissionState /\
  map Player.Id (Game.Players g) = [1; 0]%nat.
Proof. vm_compute. split; [reflexivity|]. split; reflexivity. Qed.

(** C7: a join appends the new player at the end of the roster; computing
    the leaderboard replaces the roster by its sorted copy (points, highest
    first), which is what the Game keeps when the reveal countdown runs out
    and the intermission starts. *)
Theorem C7_roster_order sort wf id name con g o :
  (match OnPlayerJoin wf id name con g o with
   | Ret _ g' _ => Game.Players g' = Game.Players g ++ [Player.mk id name con 0 0 false]
   | Panic _ _ => False
   end) /\
  (match getLeaderboard sort g o with
   | Ret _ g' _ => Game.Players g' = sort Player.t by_points_desc (Game.Players g)
   | Panic _ _ => False
   end) /\
  (Game.State g = RevealState -> Game.Time g = 1 ->
   match game_step sort wf GTimer g TimerAtTick with
   | GOk g' _ _ => Game.Players g' = sort Player.t by_points_desc (Game.Players g)
   | GCrash _ _ => False
   end).
Proof.
  split; [rewrite OnPlayerJoin_spec; reflexivity|].
  split; [rewrite getLeaderboard_spec; reflexivity|].
  intros Hs Ht. unfold game_step, lift. rewrite Tick_spec. cbv zeta. gsimpl.
  rewrite Ht. assert (H0 : (wrap64 (1 - 1) =? 0) = true) by reflexivity.
  rewrite H0, Hs, Intermission_spec. cbv zeta. gsimpl. reflexivity.
Qed.

Lemma C7_roster_order_witness :
  match game_step go_sort_slice no_fail GTimer two_player_game TimerAtTick with
  | GOk g' _ _ => Game.Players g' = go_sort_slice Player.t by_points_desc (Game.Players two_player_game)
  | GCrash _ _ => False
  end.
Proof.
  destruct (C7_roster_order go_sort_slice no_fail 0%nat EmptyString 0%nat two_player_game []) as [_ [_ H]].
  exact (H ltac:(reflexivity) ltac:(reflexivity)).
Defined.

(** ** C9 *)

(** C9 (counterexample): a host on connection 1 hosts a quiz, joins its
    own Game as a player with the Game's code, and starts it: the
    QuestionShow packet, with the correct flags of the choices, reaches
    connection 1, which is the connection of a player of the Game. *)
Lemma C9_host_joins_own_game :
  let '(games, out, crashed) :=
    net_run go_sort_slice json_ref (fetch_one one_question_quiz) never_fails self_join_events [] in
  crashed = false /\
  map (fun gt => map Player.Connection (Game.Players (fst gt))) games = [[1%nat]] /\
  last out (0%nat, TickPacket 0) = (1%nat, QuestionShowPacket (question 60)) /\
  map QuizChoice.Correct (QuizQuestion.Choices (question 60)) = [true; false].
Proof. vm_compute. split; [reflexivity|]. split; [reflexivity|]. split; reflexivity. Qed.

(** C9: every QuestionShow packet sent while handling a message, a
    disconnect or a countdown step goes to the host connection of one of
    the Games. *)
Theorem C9_question_show_to_host sort json fetch wf e games :
  match net_step sort json fetch wf e games with
  | NOk games' o => shows_to_hosts games' o
  | NCrash games' o => shows_to_hosts games' o
  end.
Proof.
  destruct e as [con msg id code|con|gi]; unfold net_step.
  - unfold OnIncomingMessage.
    destruct (decodePacket json msg) as [[p|p]|]; [intros c q [] | |intros c q []].
    destruct p; try (intros c q []).
    + destruct (getGameByCode _ games); [apply step_game_hosts|intros c q []].
    + destruct (fetch _); [|intros c q []].
      intros c q H. out_inv H.
    + destruct (getGameByHost con games); [apply step_game_hosts|intros c q []].
    + destruct (getGameByPlayer con games) as [[gi pi]|]; [apply step_game_hosts|intros c q []].
  - unfold OnDisconnect.
    destruct (getGameByPlayer con games) as [[gi pi]|]; [|intros c q []].
    destruct (nth_error games gi) as [[g tm]|]; [|intros c q []].
    destruct (nth_error (Game.Players g) pi); [apply step_game_hosts|intros c q []].
  - apply step_game_hosts.
Qed.

(** ** C10 *)




(** * Further properties of the service *)

(** X1: [BroadcastPacket] never panics and leaves the Game unchanged. It sends the packet to the players' connections in roster order, then to the host when [includeHost] is set, and returns at the first failed send: what it sent is a prefix of that fan-out in which only the last send may have failed and which stops short of the fan-out only after a failure; it returns an error exactly when its last send failed. *)
Lemma BroadcastPacket_sends wf packet includeHost g o :
  match BroadcastPacket wf packet includeHost g o with
  | Ret err g' o' =>
      g' = g /\
      exists sent, o' = o ++ sent /\
        broadcast_of wf o (map (fun p => (Player.Connection p, packet)) (Game.Players g)
                           ++ (if includeHost then [(Game.Host g, packet)] else [])) sent /\
        (err = true <-> broadcast_failed wf o sent)
  | Panic _ _ => False
  end.
Proof.
  rewrite BroadcastPacket_spec. cbv zeta. split; [reflexivity|].
  exists (fst (sends_until_fail wf o (broadcast_targets g packet includeHost))).
  split; [reflexivity|]. apply sends_until_fail_char.
Qed.

Lemma NextQuestion_end_case wf g o :
  in_int64 (Game.CurrentQuestion g + 1) ->
  Z.of_nat (List.length (Quiz.Questions (Game.Quiz g))) <= Game.CurrentQuestion g + 1 ->
  match NextQuestion wf g o with
  | Ret _ g' o' =>
      Game.Ended g' = true /\ Game.State g' = EndState /\
      Game.CurrentQuestion g' = Game.CurrentQuestion g + 1 /\
      Game.Time g' = Game.Time g /\ Game.Players g' = Game.Players g /\
      o' = o ++ state_sends wf o g EndState
  | Panic _ _ => False
  end.
Proof.
  intros Hi Hl. rewrite NextQuestion_spec. gsimpl. rewrite wrap64_id by exact Hi.
  destruct (Z.leb_spec (Z.of_nat (List.length (Quiz.Questions (Game.Quiz g))))
                       (Game.CurrentQuestion g + 1)) as [_|H]; [|lia].
  rewrite End_spec. gsimpl. repeat split; reflexivity.
Qed.

Lemma NextQuestion_show_case wf g o q :
  Game.CurrentQuestion g < 2 ^ 63 - 1 ->
  index (Quiz.Questions (Game.Quiz g)) (Game.CurrentQuestion g + 1) = Some q ->
  match NextQuestion wf g o with
  | Ret _ g' o' =>
      Game.CurrentQuestion g' = Game.CurrentQuestion g + 1 /\
      Game.State g' = PlayState /\ Game.Time g' = QuizQuestion.Time q /\
      Game.Ended g' = Game.Ended g /\
      Game.Players g' = map (fun p => Player.set_Answered p false) (Game.Players g) /\
      getAnsweredPlayers g' = [] /\
      o' = o ++ state_sends wf o g PlayState ++ [(Game.Host g, QuestionShowPacket q)]
  | Panic _ _ => False
  end.
Proof.
  intros Hc Hq. pose proof (index_Some_lt _ _ _ Hq) as Hr.
  rewrite NextQuestion_spec. gsimpl. rewrite wrap64_id by (unfold in_int64; lia).
  destruct (Z.leb_spec (Z.of_nat (List.length (Quiz.Questions (Game.Quiz g))))
                       (Game.CurrentQuestion g + 1)) as [H|_]; [lia|].
  rewrite Hq. gsimpl.
  split; [reflexivity|]. split; [reflexivity|]. split; [reflexivity|]. split; [reflexivity|].
  split; [reflexivity|]. split.
  - unfold getAnsweredPlayers. gsimpl. induction (Game.Players g); [reflexivity|exact IHl].
  - rewrite <- app_assoc. do 2 f_equal.
    apply state_sends_players; [|reflexivity]. cbn. rewrite map_map. reflexivity.
Qed.


Lemma NextQuestion_extends wf g o :
  match NextQuestion wf g o with
  | Ret _ _ o' => exists r, o' = o ++ r
  | Panic _ o' => exists r, o' = o ++ r
  end.
Proof.
  rewrite NextQuestion_spec. gsimpl.
  destruct (_ <=? _); [rewrite End_spec; eexists; reflexivity|].
  destruct index; eexists; rewrite <- ?app_assoc; reflexivity.
Qed.

(** X4: From the Lobby with index -1 and a first question, [StartOrSkip] starts the countdown goroutine and shows question 0: the Play state is broadcast twice (by [Start] and by [NextQuestion]), each broadcast stopping at its first failed send, before the question goes to the host. *)
Lemma StartOrSkip_lobby_starts sort wf g tm q :
  Game.State g = LobbyState -> Game.CurrentQuestion g = -1 ->
  index (Quiz.Questions (Game.Quiz g)) 0 = Some q ->
  match game_step sort wf GStartOrSkip g tm with
  | GOk g' tm' o =>
      tm' = TimerAtCheck /\ Game.State g' = PlayState /\ Game.CurrentQuestion g' = 0 /\
      Game.Time g' = QuizQuestion.Time q /\ Game.Ended g' = Game.Ended g /\
      exists sent1 sent2,
        o = sent1 ++ sent2 ++ [(Game.Host g, QuestionShowPacket q)] /\
        broadcast_of wf []
          (map (fun p => (Player.Connection p, ChangeGameStatePacket PlayState)) (Game.Players g)
           ++ [(Game.Host g, ChangeGameStatePacket PlayState)]) sent1 /\
        broadcast_of wf sent1
          (map (fun p => (Player.Connection p, ChangeGameStatePacket PlayState)) (Game.Players g)
           ++ [(Game.Host g, ChangeGameStatePacket PlayState)]) sent2
  | GCrash _ _ => False
  end.
Proof.
  intros Hs Hc Hq. unfold game_step. rewrite StartOrSkip_spec, Hs.
  match goal with |- context [NextQuestion ?wf0 ?g1 ?o1] =>
    pose proof (NextQuestion_show_case wf0 g1 o1 q) as H;
    destruct (NextQuestion wf0 g1 o1) as [a g' o'|g' o'] end;
  gsimpl; rewrite Hc in H; specialize (H ltac:(lia) Hq); [|destruct H].
  destruct H as (H1 & H2 & H3 & H4 & _ & _ & H7).
  rewrite H1, H2, H3, H4. split; [reflexivity|]. split; [reflexivity|].
  split; [reflexivity|]. split; [reflexivity|]. split; [reflexivity|].
  exists (state_sends wf [] g PlayState), (state_sends wf (state_sends wf [] g PlayState) g PlayState).
  split; [exact H7|]. split; apply state_sends_char.
Qed.

(** X5: Starting a Game whose quiz has no question ends it at once: Play then End are broadcast, each stopping at its first failed send, and the countdown goroutine stops at its first check of [Ended] without a single tick. *)
Lemma StartOrSkip_lobby_empty sort wfs g tm :
  Game.State g = LobbyState -> Game.CurrentQuestion g = -1 ->
  Quiz.Questions (Game.Quiz g) = [] ->
  let '(g', tm', o, crashed) := game_run sort wfs [GStartOrSkip; GTimer] g tm in
  crashed = false /\ tm' = TimerDone /\
  Game.Ended g' = true /\ Game.State g' = EndState /\ Game.CurrentQuestion g' = 0 /\
  exists sent1 sent2,
    o = sent1 ++ sent2 /\
    broadcast_of (wfs O) []
      (map (fun p => (Player.Connection p, ChangeGameStatePacket PlayState)) (Game.Players g)
       ++ [(Game.Host g, ChangeGameStatePacket PlayState)]) sent1 /\
    broadcast_of (wfs O) sent1
      (map (fun p => (Player.Connection p, ChangeGameStatePacket EndState)) (Game.Players g)
       ++ [(Game.Host g, ChangeGameStatePacket EndState)]) sent2.
Proof.
  intros Hs Hc Hq. cbn [game_run]. unfold game_step at 1. rewrite StartOrSkip_spec, Hs.
  match goal with |- context [NextQuestion ?wf0 ?g1 ?o1] =>
    pose proof (NextQuestion_end_case wf0 g1 o1) as H;
    destruct (NextQuestion wf0 g1 o1) as [a g' o'|g' o'] end;
  gsimpl; rewrite Hc, Hq in H; specialize (H ltac:(unfold in_int64; lia) ltac:(simpl; lia));
    [|destruct H].
  destruct H as (H1 & H2 & H3 & _ & H5 & H6).
  cbn [game_step]. rewrite H1. cbn [game_run].
  rewrite H6, !app_nil_r. simpl.
  split; [reflexivity|]. split; [reflexivity|].
  split; [first [exact H1|reflexivity]|]. split; [exact H2|]. split; [rewrite H3; reflexivity|].
  exists (state_sends (wfs O) [] g PlayState),
         (state_sends (wfs O) (state_sends (wfs O) [] g PlayState) g EndState).
  split; [reflexivity|]. split; apply state_sends_char.
Qed.

Lemma Reveal_closed wf g o :
  let reveals := map (fun p => (Player.Connection p,
                                PlayerRevealPacket (if Player.Answered p
                                                    then Player.LastAwardedPoints p else 0)))
                     (Game.Players g) in
  match Reveal wf g o with
  | Ret _ g' o' =>
      Game.Time g' = 5 /\ Game.State g' = RevealState /\
      Game.CurrentQuestion g' = Game.CurrentQuestion g /\ Game.Ended g' = Game.Ended g /\
      map Player.Points (Game.Players g') = map Player.Points (Game.Players g) /\
      map Player.Answered (Game.Players g') = map Player.Answered (Game.Players g) /\
      o' = o ++ reveals ++ state_sends wf (o ++ reveals) g RevealState
  | Panic _ _ => False
  end.
Proof.
  intros reveals. rewrite Reveal_spec. gsimpl. rewrite !map_map.
  split; [reflexivity|]. split; [reflexivity|]. split; [reflexivity|]. split; [reflexivity|].
  split; [apply map_ext; intros [];  destruct Answered; reflexivity|].
  split; [apply map_ext; intros []; destruct Answered; reflexivity|].
  assert (Hr : map (fun x => (Player.Connection (if Player.Answered x then x
                                                 else Player.set_LastAwardedPoints x 0),
                              PlayerRevealPacket (Player.LastAwardedPoints
                                (if Player.Answered x then x
                                 else Player.set_LastAwardedPoints x 0))))
                   (Game.Players g) = reveals)
    by (apply map_ext; intros []; destruct Answered; reflexivity).
  rewrite Hr, <- app_assoc.
  erewrite state_sends_players; [reflexivity| |reflexivity].
  cbn. rewrite map_map. apply map_ext. intros []; destruct Answered; reflexivity.
Qed.
(** X7: [Tick] first sends the host the decremented time; unless the new time is 0 in the Play, Reveal or Intermission state, that decrement is all it does. *)
Lemma Tick_sends_first sort wf g o :
  in_int64 (Game.Time g - 1) ->
  match Tick sort wf g o with
  | Ret _ g' o' =>
      exists rest, o' = o ++ (Game.Host g, TickPacket (Game.Time g - 1)) :: rest /\
      (Game.Time g - 1 <> 0 \/ Game.State g = LobbyState \/ Game.State g = EndState ->
       g' = Game.set_Time g (Game.Time g - 1) /\ rest = [])
  | Panic _ o' => exists rest, o' = o ++ (Game.Host g, TickPacket (Game.Time g - 1)) :: rest
  end.
Proof.
  intros Hi. rewrite Tick_spec. gsimpl. rewrite wrap64_id by exact Hi.
  destruct (Z.eqb_spec (Game.Time g - 1) 0) as [Hz|Hz].
  - destruct (Game.State g) eqn:Es.
    + exists []. split; [reflexivity|]. intros _. split; reflexivity.
    + rewrite Reveal_spec. gsimpl. eexists. split; [rewrite <- !app_assoc; reflexivity|].
      intros [H|[H|H]]; congruence.
    + match goal with |- context [NextQuestion ?wf0 ?g1 ?o1] =>
        pose proof (NextQuestion_extends wf0 g1 o1) as H;
        destruct (NextQuestion wf0 g1 o1) as [a g' o'|g' o'] end;
      destruct H as [r ->]; exists r; [split|]; rewrite <- ?app_assoc; try reflexivity.
      intros [H|[H|H]]; congruence.
    + rewrite Intermission_spec. gsimpl. eexists. split; [rewrite <- app_assoc; reflexivity|].
      intros [H|[H|H]]; congruence.
    + exists []. split; [reflexivity|]. intros _. split; reflexivity.
  - exists []. split; [reflexivity|]. intros _. split; reflexivity.
Qed.

(** X8: [OnPlayerDisconnect] removes from the roster exactly the players with the leaving player's id (the roster is unchanged if there is none), changes nothing else, and notifies the host. *)
Lemma OnPlayerDisconnect_removes wf player g o :
  match OnPlayerDisconnect wf player g o with
  | Ret _ g' o' =>
      (forall p, In p (Game.Players g') <->
                 In p (Game.Players g) /\ Player.Id p <> Player.Id player) /\
      ((forall p, In p (Game.Players g) -> Player.Id p <> Player.Id player) ->
       Game.Players g' = Game.Players g) /\
      Game.State g' = Game.State g /\ Game.CurrentQuestion g' = Game.CurrentQuestion g /\
      Game.Time g' = Game.Time g /\ Game.Ended g' = Game.Ended g /\
      o' = o ++ [(Game.Host g, PlayerDisconnectPacket (Player.Id player))]
  | Panic _ _ => False
  end.
Proof.
  rewrite OnPlayerDisconnect_spec. gsimpl.
  split; [|split; [|repeat split]].
  - intros p. rewrite filter_In, negb_true_iff, Nat.eqb_neq. reflexivity.
  - intros H. induction (Game.Players g) as [|x l IH]; [reflexivity|]. simpl.
    rewrite (proj2 (Nat.eqb_neq _ _) (H x (or_introl eq_refl))). simpl.
    rewrite IH; [reflexivity|]. intros p Hp. apply H. right. exact Hp.
Qed.


Lemma game_run_app sort wfs a b g tm :
  game_run sort wfs (a ++ b) g tm =
  let '(g1, tm1, o1, c1) := game_run sort wfs a g tm in
  if c1 then (g1, tm1, o1, true)
  else let '(g2, tm2, o2, c2) := game_run sort (fun k => wfs (List.length a + k)%nat) b g1 tm1 in
       (g2, tm2, o1 ++ o2, c2).
Proof.
  revert wfs g tm. induction a as [|e a IH]; intros wfs g tm; simpl.
  - destruct (game_run sort wfs b g tm) as [[[g2 tm2] o2] c2]. reflexivity.
  - destruct (game_step sort (wfs O) e g tm) as [g1 tm1 o1|g1 o1]; [|reflexivity].
    rewrite IH. destruct (game_run sort (fun n => wfs (S n)) a g1 tm1) as [[[g2 tm2] o2] c2].
    destruct c2; [reflexivity|].
    destruct (game_run sort _ b g2 tm2) as [[[g3 tm3] o3] c3].
    rewrite app_assoc. reflexivity.
Qed.

Lemma countdown_S_end n : countdown (S n) = countdown n ++ [GTimer; GTimer].
Proof. induction n as [|n IH]; [reflexivity|]. simpl in *. rewrite IH. reflexivity. Qed.

Lemma countdown_length n : List.length (countdown n) = (2 * n)%nat.
Proof. induction n as [|n IH]; [reflexivity|]. simpl in *. rewrite IH. lia. Qed.

(** One round of the countdown loop that does not bring [Time] to 0. *)
Lemma round_spec sort wfs g evs :
  Game.Ended g = false -> in_int64 (Game.Time g - 1) -> Game.Time g - 1 <> 0 ->
  game_run sort wfs (GTimer :: GTimer :: evs) g TimerAtCheck =
  let '(g', tm', o, c) := game_run sort (fun k => wfs (S (S k))) evs
                                   (Game.set_Time g (Game.Time g - 1)) TimerAtCheck in
  (g', tm', (Game.Host g, TickPacket (Game.Time g - 1)) :: o, c).
Proof.
  intros He Hi Hz.
  cbn [game_run]. unfold game_step at 1. rewrite He.
  cbn [game_run]. unfold game_step at 1. unfold lift. rewrite Tick_spec. gsimpl.
  rewrite wrap64_id by exact Hi.
  destruct (Z.eqb_spec (Game.Time g - 1) 0) as [H|_]; [contradiction|].
  destruct (game_run sort _ evs _ TimerAtCheck) as [[[g2 tm2] o2] c2]. reflexivity.
Qed.

Lemma countdown_ticks sort wfs g n :
  Game.Ended g = false -> Game.Time g < 2 ^ 63 ->
  in_int64 (Game.Time g - Z.of_nat n) ->
  (forall k, (1 <= k <= n)%nat -> Game.Time g - Z.of_nat k <> 0) ->
  game_run sort wfs (countdown n) g TimerAtCheck =
  (Game.set_Time g (Game.Time g - Z.of_nat n), TimerAtCheck,
   map (fun k => (Game.Host g, TickPacket (Game.Time g - Z.of_nat k))) (seq 1 n), false).
Proof.
  revert wfs g. induction n as [|n IH]; intros wfs g He Ht Hi Hz.
  - simpl. rewrite Z.sub_0_r. destruct g; reflexivity.
  - cbn [countdown]. unfold in_int64 in Hi. rewrite Nat2Z.inj_succ in Hi.
    rewrite round_spec by (first [exact He | unfold in_int64; lia | apply (Hz 1%nat); lia]).
    rewrite IH; gsimpl.
    + replace (Game.Time g - Z.of_nat (S n)) with (Game.Time g - 1 - Z.of_nat n) by lia.
      cbn [seq map]. rewrite <- (seq_shift n 1), map_map. cbv beta.
      rewrite (map_ext (fun k => (Game.Host g, TickPacket (Game.Time g - Z.of_nat (S k))))
                       (fun k => (Game.Host g, TickPacket (Game.Time g - 1 - Z.of_nat k))))
        by (intros k; rewrite Nat2Z.inj_succ; do 2 f_equal; lia).
      replace (Game.Time g - Z.of_nat 1) with (Game.Time g - 1) by lia.
      reflexivity.
    + exact He.
    + lia.
    + unfold in_int64. lia.
    + intros k Hk. specialize (Hz (S k) ltac:(lia)). rewrite Nat2Z.inj_succ in Hz. lia.
Qed.


(** X10: A Game whose time is already 0 or negative never changes state from the countdown: each round only decrements the time further and sends the tick. *)
Lemma countdown_nonpositive sort wfs g n :
  Game.Ended g = false -> Game.Time g <= 0 -> - 2 ^ 63 <= Game.Time g - Z.of_nat n ->
  game_run sort wfs (countdown n) g TimerAtCheck =
  (Game.set_Time g (Game.Time g - Z.of_nat n), TimerAtCheck,
   map (fun k => (Game.Host g, TickPacket (Game.Time g - Z.of_nat k))) (seq 1 n), false).
Proof.
  intros He Ht Hn. apply countdown_ticks; [exact He | lia | unfold in_int64; lia |].
  intros k Hk. lia.
Qed.

(** X11: A Play question with [n]+1 seconds left is revealed after exactly [n]+1 rounds of the countdown: the ticks n, ..., 0 go to the host, then the reveal packets to the players, then the Reveal state is broadcast (stopping at its first failed send) with the time set to 5. *)
Lemma question_times_out sort wfs g n :
  Game.Ended g = false -> Game.State g = PlayState ->
  Game.Time g = Z.of_nat n + 1 -> Z.of_nat n < 2 ^ 62 ->
  let reveals := map (fun p => (Player.Connection p,
                                PlayerRevealPacket (if Player.Answered p
                                                    then Player.LastAwardedPoints p else 0)))
                     (Game.Players g) in
  let '(g', tm', o, crashed) := game_run sort wfs (countdown (S n)) g TimerAtCheck in
  crashed = false /\ tm' = TimerAtCheck /\ Game.State g' = RevealState /\ Game.Time g' = 5 /\
  Game.CurrentQuestion g' = Game.CurrentQuestion g /\
  exists sent,
    o = map (fun k => (Game.Host g, TickPacket (Game.Time g - Z.of_nat k))) (seq 1 (S n))
        ++ reveals ++ sent /\
    broadcast_of (wfs (2 * n + 1)%nat) ([(Game.Host g, TickPacket 0)] ++ reveals)
      (map (fun p => (Player.Connection p, ChangeGameStatePacket RevealState)) (Game.Players g)
       ++ [(Game.Host g, ChangeGameStatePacket RevealState)]) sent.
Proof.
  intros He Hs Ht Hn reveals.
  rewrite countdown_S_end, game_run_app, countdown_length.
  rewrite countdown_ticks by (first [exact He | unfold in_int64; lia | lia | intros k Hk; lia]).
  cbn [game_run]. unfold game_step at 1. gsimpl. rewrite He.
  cbn [game_run]. unfold game_step at 1. unfold lift. rewrite Tick_spec. gsimpl.
  replace (Game.Time g - Z.of_nat n) with 1 by lia. rewrite Hs.
  change (wrap64 (1 - 1)) with 0. cbn [Z.eqb].
  pose proof (Reveal_closed (wfs (2 * n + 1)%nat) (Game.set_Time (Game.set_Time g 1) 0)
                ([] ++ [(Game.Host g, TickPacket 0)])) as H.
  cbv zeta in H. rewrite Nat.add_1_r in *.
  destruct (Reveal _ _ _) as [a g' o'|g' o']; [|destruct H]. gsimpl.
  destruct H as (H1 & H2 & H3 & _ & _ & _ & H7).
  split; [reflexivity|]. split; [reflexivity|]. split; [exact H2|]. split; [exact H1|].
  split; [exact H3|].
  exists (state_sends (wfs (S (2 * n))) ([(Game.Host g, TickPacket 0)] ++ reveals) g RevealState).
  split.
  - rewrite H7, seq_S, map_app, <- !app_assoc, !app_nil_r. cbn [app map].
    replace (Game.Time g - Z.of_nat (1 + n)) with 0 by lia. reflexivity.
  - apply state_sends_char.
Qed.

(** X12: [isCorrectChoice] reads the [Correct] flag of the chosen choice of the current question and answers false for an index below 0 or past the last choice, without changing the Game. *)
Lemma isCorrectChoice_bounds choice g o q :
  index (Quiz.Questions (Game.Quiz g)) (Game.CurrentQuestion g) = Some q ->
  isCorrectChoice choice g o =
  Ret (match index (QuizQuestion.Choices q) choice with
       | Some c => QuizChoice.Correct c
       | None => false
       end) g o /\
  (choice < 0 \/ Z.of_nat (List.length (QuizQuestion.Choices q)) <= choice ->
   isCorrectChoice choice g o = Ret false g o).
Proof.
  intros Hq. rewrite isCorrectChoice_spec, Hq. unfold choice_is_correct.
  split; [reflexivity|]. intros Hr.
  rewrite (proj2 (index_None _ _) Hr). reflexivity.
Qed.

(** X13: [getPointsReward] is a pure read; for |Time| <= 2^50 it lies between 1000 + 16*Time and 5000 + 16*Time, is 5000 + 16*Time when no player has answered, and 1000 + 16*Time once four or more have. *)
Lemma getPointsReward_bounds g o :
  Z.abs (Game.Time g) <= 2 ^ 50 ->
  getPointsReward g o = Ret (points_reward g) g o /\
  1000 + Game.Time g * 16 <= points_reward g <= 5000 + Game.Time g * 16 /\
  (getAnsweredPlayers g = [] -> points_reward g = 5000 + Game.Time g * 16) /\
  ((4 <= List.length (getAnsweredPlayers g))%nat -> points_reward g = 1000 + Game.Time g * 16).
Proof.
  intros Ht. split; [reflexivity|]. rewrite (points_reward_exact g Ht).
  split; [lia|]. split.
  - intros H. rewrite H. simpl. lia.
  - intros H. rewrite Z.min_l by lia. lia.
Qed.

Lemma length_filter_all {A} (f : A -> bool) l :
  List.length (filter f l) = List.length l <-> forallb f l = true.
Proof.
  induction l as [|x l IH]; simpl; [tauto|].
  pose proof (filter_length_le f l) as Hle.
  destruct (f x); simpl.
  - rewrite <- IH. split; intros H; lia.
  - split; [intros H; lia | discriminate].
Qed.

Lemma forallb_map_ext {A B} (f : B -> bool) (h : A -> B) (k : A -> bool) l :
  (forall x, f (h x) = k x) -> forallb f (map h l) = forallb k l.
Proof. intros H. induction l as [|x l IH]; simpl; [reflexivity|]. rewrite H, IH. reflexivity. Qed.

(** X14: After [OnPlayerAnswer], the Game is in Reveal with time 5 if every player of the roster has answered; otherwise the state and time are unchanged and no packet is sent. *)
Lemma OnPlayerAnswer_auto_reveal wf choice pi g o q :
  index (Quiz.Questions (Game.Quiz g)) (Game.CurrentQuestion g) = Some q ->
  match OnPlayerAnswer wf choice pi g o with
  | Ret _ g' o' =>
      if forallb Player.Answered (Game.Players g')
      then Game.State g' = RevealState /\ Game.Time g' = 5
      else Game.State g' = Game.State g /\ Game.Time g' = Game.Time g /\ o' = o
  | Panic _ _ => False
  end.
Proof.
  intros Hq. rewrite OnPlayerAnswer_spec, Hq. cbv zeta.
  unfold getAnsweredPlayers. gsimpl.
  destruct (Nat.eqb_spec (List.length (filter Player.Answered
              (update_nth pi (answer_update (choice_is_correct q choice) (points_reward g))
                          (Game.Players g))))
            (List.length (update_nth pi (answer_update (choice_is_correct q choice)
                                                       (points_reward g)) (Game.Players g))))
    as [E|E].
  - rewrite Reveal_spec. gsimpl. apply length_filter_all in E.
    erewrite forallb_map_ext; [rewrite E; split; reflexivity|].
    intros p. destruct (Player.Answered p) eqn:Ea; [exact Ea|].
    destruct p; simpl in *; exact Ea.
  - unfold ret. gsimpl.
    destruct (forallb Player.Answered _) eqn:Ef.
    + apply length_filter_all in Ef. contradiction.
    + repeat split; reflexivity.
Qed.

Lemma find_index_spec {A} (p : A -> bool) l :
  match find_index p l with
  | Some i => exists x, nth_error l i = Some x /\ p x = true /\
              forall j y, (j < i)%nat -> nth_error l j = Some y -> p y = false
  | None => forall x, In x l -> p x = false
  end.
Proof.
  induction l as [|x l IH]; simpl; [intros x []|].
  destruct (p x) eqn:Ex.
  - exists x. split; [reflexivity|]. split; [exact Ex|]. intros j y Hj. lia.
  - destruct (find_index p l) as [i|]; simpl.
    + destruct IH as (y & Hy & Hpy & Hfirst). exists y. split; [exact Hy|]. split; [exact Hpy|].
      intros [|j] z Hj Hz; simpl in Hz; [congruence|]. apply (Hfirst j); [lia|exact Hz].
    + intros y [<-|Hy]; [exact Ex|]. apply IH, Hy.
Qed.

Lemma find_index_app_one {A} (p : A -> bool) l x :
  find_index p (l ++ [x]) =
  match find_index p l with
  | Some i => Some i
  | None => if p x then Some (List.length l) else None
  end.
Proof.
  induction l as [|y l IH]; simpl; [destruct (p x); reflexivity|].
  destruct (p y); [reflexivity|]. rewrite IH.
  destruct (find_index p l); [reflexivity|]. destruct (p x); reflexivity.
Qed.

(** X15: [getGameByCode] and [getGameByHost] return the first game, in creation order, with that code or host, and nil only when no game has it. *)
Lemma getGameBy_first code host games :
  (match getGameByCode code games with
   | Some gi => exists g tm, nth_error games gi = Some (g, tm) /\ Game.Code g = code /\
       forall j g' tm', (j < gi)%nat -> nth_error games j = Some (g', tm') -> Game.Code g' <> code
   | None => forall g tm, In (g, tm) games -> Game.Code g <> code
   end) /\
  (match getGameByHost host games with
   | Some gi => exists g tm, nth_error games gi = Some (g, tm) /\ Game.Host g = host /\
       forall j g' tm', (j < gi)%nat -> nth_error games j = Some (g', tm') -> Game.Host g' <> host
   | None => forall g tm, In (g, tm) games -> Game.Host g <> host
   end).
Proof.
  unfold getGameByCode, getGameByHost. split.
  - pose proof (find_index_spec (fun gt => String.eqb (Game.Code (fst gt)) code) games) as H.
    destruct find_index as [gi|].
    + destruct H as ([g tm] & Hn & Hc & Hf). exists g, tm. split; [exact Hn|].
      split; [apply String.eqb_eq, Hc|]. intros j g' tm' Hj Hj'.
      apply String.eqb_neq, (Hf j (g', tm') Hj Hj').
    + intros g tm Hin. apply String.eqb_neq, (H (g, tm) Hin).
  - pose proof (find_index_spec (fun gt => Nat.eqb (Game.Host (fst gt)) host) games) as H.
    destruct find_index as [gi|].
    + destruct H as ([g tm] & Hn & Hc & Hf). exists g, tm. split; [exact Hn|].
      split; [apply Nat.eqb_eq, Hc|]. intros j g' tm' Hj Hj'.
      apply Nat.eqb_neq, (Hf j (g', tm') Hj Hj').
    + intros g tm Hin. apply Nat.eqb_neq, (H (g, tm) Hin).
Qed.

Lemma getGameByPlayer_spec con games :
  match getGameByPlayer con games with
  | Some (gi, pi) =>
      exists g tm p, nth_error games gi = Some (g, tm) /\
        nth_error (Game.Players g) pi = Some p /\ Player.Connection p = con /\
        (forall k p', (k < pi)%nat -> nth_error (Game.Players g) k = Some p' ->
                      Player.Connection p' <> con) /\
        (forall j g' tm', (j < gi)%nat -> nth_error games j = Some (g', tm') ->
           forall p', In p' (Game.Players g') -> Player.Connection p' <> con)
  | None => forall g tm p, In (g, tm) games -> In p (Game.Players g) -> Player.Connection p <> con
  end.
Proof.
  induction games as [|[g tm] games IH]; simpl; [intros g tm p []|].
  pose proof (find_index_spec (fun p => Nat.eqb (Player.Connection p) con) (Game.Players g)) as H.
  destruct find_index as [pi|].
  - destruct H as (p & Hp & Hc & Hf). exists g, tm, p.
    split; [reflexivity|]. split; [exact Hp|]. split; [apply Nat.eqb_eq, Hc|].
    split; [intros k p' Hk Hk'; apply Nat.eqb_neq, (Hf k p' Hk Hk')|].
    intros j g' tm' Hj. lia.
  - destruct (getGameByPlayer con games) as [[gi pi]|]; simpl.
    + destruct IH as (g1 & tm1 & p & Hn & Hp & Hc & Hk & Hj).
      exists g1, tm1, p. split; [exact Hn|]. split; [exact Hp|]. split; [exact Hc|].
      split; [exact Hk|].
      intros [|j] g' tm' Hlt Hj'; simpl in Hj'.
      * injection Hj' as <- <-. intros p' Hin. apply Nat.eqb_neq, (H p' Hin).
      * apply (Hj j g' tm'); [lia|exact Hj'].
    + intros g' tm' p [Heq|Hin] Hp.
      * injection Heq as <- <-. apply Nat.eqb_neq, (H p Hp).
      * apply (IH g' tm' p Hin Hp).
Qed.

(** X17: A HostGame request for an existing quiz appends a new Lobby game hosted on the connection and answers it with the game's code and the Lobby state; lookups by that code or host still return an earlier game if there was one. *)
Lemma HostGame_appends sort json fetch wf con msg id code games quizId quiz :
  decodePacket json msg = Some (Ptr (HostGamePacket quizId)) -> fetch quizId = Some quiz ->
  match net_step sort json fetch wf (EvMessage con msg id code) games with
  | NOk games' o =>
      games' = games ++ [(newGame id code quiz con, TimerOff)] /\
      o = [(con, HostGamePacket code); (con, ChangeGameStatePacket LobbyState)] /\
      getGameByCode code games' =
        match getGameByCode code games with
        | Some gi => Some gi
        | None => Some (List.length games)
        end /\
      getGameByHost con games' =
        match getGameByHost con games with
        | Some gi => Some gi
        | None => Some (List.length games)
        end
  | NCrash _ _ => False
  end.
Proof.
  intros Hd Hf. unfold net_step, OnIncomingMessage. rewrite Hd, Hf.
  split; [reflexivity|]. split; [reflexivity|].
  unfold getGameByCode, getGameByHost. rewrite !find_index_app_one. cbn.
  rewrite String.eqb_refl, Nat.eqb_refl. split; reflexivity.
Qed.

(** X18: A HostGame for a missing quiz, a Connect with an unknown code, a StartGame from a non-host and an answer from an unknown connection change nothing and send nothing. *)
Lemma message_without_target_ignored sort json fetch wf con msg id code games :
  (exists quizId, decodePacket json msg = Some (Ptr (HostGamePacket quizId)) /\ fetch quizId = None) \/
  (exists gc name, decodePacket json msg = Some (Ptr (ConnectPacket gc name)) /\
                   getGameByCode gc games = None) \/
  (decodePacket json msg = Some (Ptr StartGamePacket) /\ getGameByHost con games = None) \/
  (exists c, decodePacket json msg = Some (Ptr (QuestionAnswerPacket c)) /\
             getGameByPlayer con games = None) ->
  net_step sort json fetch wf (EvMessage con msg id code) games = NOk games [].
Proof.
  unfold net_step, OnIncomingMessage.
  intros [(q & Hd & Hf)|[(gc & n & Hd & Hg)|[(Hd & Hg)|(c & Hd & Hg)]]]; rewrite Hd;
    [rewrite Hf | rewrite Hg | rewrite Hg | rewrite Hg]; reflexivity.
Qed.

(** X19: A Connect with the code of an existing game appends the new player to that game's roster only, sends the joining connection the current state and tells the host. *)
Lemma Connect_joins sort json fetch wf con msg id code games gc name gi g tm :
  decodePacket json msg = Some (Ptr (ConnectPacket gc name)) ->
  getGameByCode gc games = Some gi -> nth_error games gi = Some (g, tm) ->
  net_step sort json fetch wf (EvMessage con msg id code) games =
  NOk (update_nth gi (fun _ => (Game.set_Players g
                                  (Game.Players g ++ [Player.mk id name con 0 0 false]), tm))
                  games)
      [(con, ChangeGameStatePacket (Game.State g));
       (Game.Host g, PlayerJoinPacket (Player.mk id name con 0 0 false))].
Proof.
  intros Hd Hg Hn. unfold net_step, OnIncomingMessage. rewrite Hd, Hg.
  unfold step_game. rewrite Hn. unfold game_step, lift. rewrite OnPlayerJoin_spec. reflexivity.
Qed.

(** X20: [OnDisconnect] is a no-op for a connection no player uses; otherwise it removes the players with the found player's id from the first game holding the connection and notifies that game's host. *)
Lemma OnDisconnect_removes sort json fetch wf con games :
  match getGameByPlayer con games with
  | None => net_step sort json fetch wf (EvDisconnect con) games = NOk games []
  | Some (gi, pi) =>
      exists g tm p, nth_error games gi = Some (g, tm) /\
        nth_error (Game.Players g) pi = Some p /\ Player.Connection p = con /\
        net_step sort json fetch wf (EvDisconnect con) games =
        NOk (update_nth gi (fun _ => (Game.set_Players g
               (filter (fun p' => negb (Nat.eqb (Player.Id p') (Player.Id p))) (Game.Players g)),
               tm)) games)
            [(Game.Host g, PlayerDisconnectPacket (Player.Id p))]
  end.
Proof.
  pose proof (getGameByPlayer_spec con games) as H.
  unfold net_step, OnDisconnect.
  destruct (getGameByPlayer con games) as [[gi pi]|]; [|reflexivity].
  destruct H as (g & tm & p & Hn & Hp & Hc & _).
  exists g, tm, p. split; [exact Hn|]. split; [exact Hp|]. split; [exact Hc|].
  rewrite Hn, Hp. unfold step_game. rewrite Hn. reflexivity.
Qed.













Ltac enc_tac :=
  let c := fresh "c" in let p := fresh "p" in let H := fresh "H" in
  intros c p H; out_inv H;
  repeat match type of H with
         | (_, _) = (_, _) => injection H as <- <-
         | _ => idtac
         end; cbn; discriminate.

Lemma game_step_encodable sort wf e g tm :
  match game_step sort wf e g tm with
  | GOk _ _ o | GCrash _ o => encodable o
  end.
Proof.
  destruct e; unfold game_step.
  - rewrite StartOrSkip_spec.
    destruct (Game.State g); rewrite NextQuestion_spec;
      gsimpl; (destruct (_ <=? _); [rewrite End_spec | destruct index]); enc_tac.
  - unfold lift. rewrite OnPlayerAnswer_spec. destruct index; gsimpl; [|enc_tac].
    destruct (Nat.eqb _ _); [rewrite Reveal_spec|]; unfold ret; enc_tac.
  - unfold lift. rewrite OnPlayerJoin_spec. enc_tac.
  - unfold lift. rewrite OnPlayerDisconnect_spec. enc_tac.
  - destruct tm; try enc_tac.
    unfold lift. rewrite Tick_spec. gsimpl.
    destruct (_ =? 0); [destruct (Game.State g)|];
      try rewrite Reveal_spec; try rewrite Intermission_spec; try rewrite NextQuestion_spec;
      gsimpl; try (destruct (_ <=? _); [rewrite End_spec | destruct index]); enc_tac.
Qed.

Lemma step_game_encodable sort wf gi e games :
  match step_game sort wf gi e games with
  | NOk _ o | NCrash _ o => encodable o
  end.
Proof.
  unfold step_game. destruct (nth_error games gi) as [[g tm]|]; [|intros c p []].
  pose proof (game_step_encodable sort wf e g tm) as H.
  destruct (game_step sort wf e g tm); exact H.
Qed.

(** X22: Every packet the service sends is a struct value with a packet id, so [PacketToBytes] never fails on it. *)
Lemma net_step_encodable sort json fetch wf e games :
  match net_step sort json fetch wf e games with
  | NOk _ o | NCrash _ o =>
      forall c p, In (c, p) o -> exists bytes, PacketToBytes json (Val p) = Some bytes
  end.
Proof.
  assert (Hgo : forall o, encodable o ->
            forall c p, In (c, p) o -> exists bytes, PacketToBytes json (Val p) = Some bytes).
  { intros o Ho c p Hin. specialize (Ho c p Hin). unfold PacketToBytes.
    destruct (packetToPacketId (Val p)); [eexists; reflexivity|contradiction]. }
  assert (Hst : forall gi e, match step_game sort wf gi e games with
            | NOk _ o | NCrash _ o =>
                forall c p, In (c, p) o -> exists bytes, PacketToBytes json (Val p) = Some bytes
            end).
  { intros gi e'. pose proof (step_game_encodable sort wf gi e' games) as H.
    destruct (step_game sort wf gi e' games); apply Hgo, H. }
  destruct e as [con msg id code|con|gi]; unfold net_step.
  - unfold OnIncomingMessage.
    destruct (decodePacket json msg) as [[p|p]|]; [intros c p' []| |intros c p []].
    destruct p; try (intros c p' []).
    + destruct (getGameByCode _ games); [apply Hst|intros c p []].
    + destruct (fetch _); [|intros c p []]. apply Hgo. enc_tac.
    + destruct (getGameByHost con games); [apply Hst|intros c p []].
    + destruct (getGameByPlayer con games) as [[gi pi]|]; [apply Hst|intros c p []].
  - unfold OnDisconnect. destruct (getGameByPlayer con games) as [[gi pi]|]; [|intros c p []].
    destruct (nth_error games gi) as [[g tm]|]; [|intros c p []].
    destruct (nth_error (Game.Players g) pi); [apply Hst|intros c p []].
  - apply Hst.
Qed.

Lemma itoa_digits_more f n acc :
  (n / 10 =? 0) = false ->
  itoa_digits (S f) n acc = itoa_digits f (n / 10) (String (digit_char n) acc).
Proof. intros H. cbn [itoa_digits]. rewrite H. reflexivity. Qed.

Lemma itoa_digits_last f n acc :
  (n / 10 =? 0) = true -> itoa_digits (S f) n acc = String (digit_char n) acc.
Proof. intros H. cbn [itoa_digits]. rewrite H. reflexivity. Qed.

Lemma div10_range lo x : 10 * lo <= x < 100 * lo -> lo <= x / 10 < 10 * lo.
Proof. intros H. Z.div_mod_to_equations. lia. Qed.

Lemma div10_nonzero x : 10 <= x -> (x / 10 =? 0) = false.
Proof. intros H. apply Z.eqb_neq. Z.div_mod_to_equations. lia. Qed.

Lemma div10_zero x : 0 <= x < 10 -> (x / 10 =? 0) = true.
Proof. intros H. apply Z.eqb_eq. apply Z.div_small. exact H. Qed.

Lemma digit_char_spec x :
  0 <= x ->
  (48 <= nat_of_ascii (digit_char x) <= 57)%nat /\ Z.of_nat (nat_of_ascii (digit_char x)) - 48 = x mod 10.
Proof.
  intros Hx. pose proof (Z.mod_pos_bound x 10 ltac:(lia)) as Hm.
  unfold digit_char. rewrite nat_ascii_embedding by lia. split; [lia|]. lia.
Qed.

(** X23: For every value drawn by [rand.Intn(900000)], [generateCode] returns six decimal digits denoting 100000 plus that value. *)
Lemma generateCode_six_digits r :
  0 <= r < 900000 ->
  String.length (generateCode r) = 6%nat /\
  (forall i c, String.get i (generateCode r) = Some c -> (48 <= nat_of_ascii c <= 57)%nat) /\
  decimal_value (generateCode r) 0 = 100000 + r.
Proof.
  intros Hr. unfold generateCode, Itoa.
  rewrite (proj2 (Z.ltb_ge _ _)) by lia.
  remember (100000 + r) as n eqn:En.
  assert (Hn : 100000 <= n < 1000000) by lia. clear En.
  pose proof (Z.div_mod n 10 ltac:(lia)) as M0.
  rewrite itoa_digits_more by (apply div10_nonzero; lia).
  pose proof (div10_range 10000 n ltac:(lia)) as B1.
  remember (n / 10) as q1 eqn:Q1; clear Q1.
  pose proof (Z.div_mod q1 10 ltac:(lia)) as M1.
  rewrite itoa_digits_more by (apply div10_nonzero; lia).
  pose proof (div10_range 1000 q1 ltac:(lia)) as B2.
  remember (q1 / 10) as q2 eqn:Q2; clear Q2.
  pose proof (Z.div_mod q2 10 ltac:(lia)) as M2.
  rewrite itoa_digits_more by (apply div10_nonzero; lia).
  pose proof (div10_range 100 q2 ltac:(lia)) as B3.
  remember (q2 / 10) as q3 eqn:Q3; clear Q3.
  pose proof (Z.div_mod q3 10 ltac:(lia)) as M3.
  rewrite itoa_digits_more by (apply div10_nonzero; lia).
  pose proof (div10_range 10 q3 ltac:(lia)) as B4.
  remember (q3 / 10) as q4 eqn:Q4; clear Q4.
  pose proof (Z.div_mod q4 10 ltac:(lia)) as M4.
  rewrite itoa_digits_more by (apply div10_nonzero; lia).
  pose proof (div10_range 1 q4 ltac:(lia)) as B5.
  remember (q4 / 10) as q5 eqn:Q5; clear Q5.
  rewrite itoa_digits_last by (apply div10_zero; lia).
  assert (M5 : q5 mod 10 = q5) by (apply Z.mod_small; lia).
  destruct (digit_char_spec n ltac:(lia)) as [D0 V0].
  destruct (digit_char_spec q1 ltac:(lia)) as [D1 V1].
  destruct (digit_char_spec q2 ltac:(lia)) as [D2 V2].
  destruct (digit_char_spec q3 ltac:(lia)) as [D3 V3].
  destruct (digit_char_spec q4 ltac:(lia)) as [D4 V4].
  destruct (digit_char_spec q5 ltac:(lia)) as [D5 V5].
  split; [reflexivity|]. split.
  - intros [|[|[|[|[|[|i]]]]]] c H; cbn [String.get] in H; try discriminate H; injection H as <-; assumption.
  - cbn [decimal_value]. rewrite V0, V1, V2, V3, V4, V5. lia.
Qed.

(** X2: When the incremented question index reaches the number of questions, [NextQuestion] ends the Game: [Ended] set, state End, index incremented, time and roster untouched, and the End state broadcast to the players and then the host, stopping at the first failed send. *)
Lemma NextQuestion_ends wf g o :
  in_int64 (Game.CurrentQuestion g + 1) ->
  Z.of_nat (List.length (Quiz.Questions (Game.Quiz g))) <= Game.CurrentQuestion g + 1 ->
  match NextQuestion wf g o with
  | Ret _ g' o' =>
      Game.Ended g' = true /\ Game.State g' = EndState /\
      Game.CurrentQuestion g' = Game.CurrentQuestion g + 1 /\
      Game.Time g' = Game.Time g /\ Game.Players g' = Game.Players g /\
      exists sent, o' = o ++ sent /\
        broadcast_of wf o
          (map (fun p => (Player.Connection p, ChangeGameStatePacket EndState)) (Game.Players g)
           ++ [(Game.Host g, ChangeGameStatePacket EndState)]) sent
  | Panic _ _ => False
  end.
Proof.
  intros Hi Hl. pose proof (NextQuestion_end_case wf g o Hi Hl) as H.
  destruct (NextQuestion wf g o) as [a g' o'|g' o']; [|exact H].
  destruct H as (H1 & H2 & H3 & H4 & H5 & H6).
  repeat (split; [assumption|]).
  exists (state_sends wf o g EndState). split; [exact H6|apply state_sends_char].
Qed.

(** X3: When the incremented index names a question, [NextQuestion] moves to Play with that question's time, clears every player's answered flag, broadcasts Play (stopping at the first failed send) and sends [QuestionShow] of the question to the host last. *)
Lemma NextQuestion_shows wf g o q :
  Game.CurrentQuestion g < 2 ^ 63 - 1 ->
  index (Quiz.Questions (Game.Quiz g)) (Game.CurrentQuestion g + 1) = Some q ->
  match NextQuestion wf g o with
  | Ret _ g' o' =>
      Game.CurrentQuestion g' = Game.CurrentQuestion g + 1 /\
      Game.State g' = PlayState /\ Game.Time g' = QuizQuestion.Time q /\
      Game.Ended g' = Game.Ended g /\
      Game.Players g' = map (fun p => Player.set_Answered p false) (Game.Players g) /\
      getAnsweredPlayers g' = [] /\
      exists sent, o' = o ++ sent ++ [(Game.Host g, QuestionShowPacket q)] /\
        broadcast_of wf o
          (map (fun p => (Player.Connection p, ChangeGameStatePacket PlayState)) (Game.Players g)
           ++ [(Game.Host g, ChangeGameStatePacket PlayState)]) sent
  | Panic _ _ => False
  end.
Proof.
  intros Hc Hq. pose proof (NextQuestion_show_case wf g o q Hc Hq) as H.
  destruct (NextQuestion wf g o) as [a g' o'|g' o']; [|exact H].
  destruct H as (H1 & H2 & H3 & H4 & H5 & H6 & H7).
  repeat (split; [assumption|]).
  exists (state_sends wf o g PlayState). split; [exact H7|apply state_sends_char].
Qed.

(** X6: [Reveal] sets the time to 5 and the state to Reveal, keeps points and answered flags, and sends each player its last award if it answered and 0 otherwise, before broadcasting the Reveal state (stopping at the first failed send). *)
Lemma Reveal_reports wf g o :
  let reveals := map (fun p => (Player.Connection p,
                                PlayerRevealPacket (if Player.Answered p
                                                    then Player.LastAwardedPoints p else 0)))
                     (Game.Players g) in
  match Reveal wf g o with
  | Ret _ g' o' =>
      Game.Time g' = 5 /\ Game.State g' = RevealState /\
      Game.CurrentQuestion g' = Game.CurrentQuestion g /\ Game.Ended g' = Game.Ended g /\
      map Player.Points (Game.Players g') = map Player.Points (Game.Players g) /\
      map Player.Answered (Game.Players g') = map Player.Answered (Game.Players g) /\
      exists sent, o' = o ++ reveals ++ sent /\
        broadcast_of wf (o ++ reveals)
          (map (fun p => (Player.Connection p, ChangeGameStatePacket RevealState)) (Game.Players g)
           ++ [(Game.Host g, ChangeGameStatePacket RevealState)]) sent
  | Panic _ _ => False
  end.
Proof.
  intros reveals. pose proof (Reveal_closed wf g o) as H. cbv zeta in H.
  destruct (Reveal wf g o) as [a g' o'|g' o']; [|exact H].
  destruct H as (H1 & H2 & H3 & H4 & H5 & H6 & H7).
  repeat (split; [assumption|]).
  exists (state_sends wf (o ++ reveals) g RevealState). split; [exact H7|apply state_sends_char].
Qed.

(** X9: While the time does not reach 0, [n] rounds of the countdown loop of [Start] only decrement the time by [n] and send the host the ticks Time-1, ..., Time-n. *)
Lemma countdown_no_zero sort wfs g n :
  Game.Ended g = false -> Game.Time g < 2 ^ 63 ->
  in_int64 (Game.Time g - Z.of_nat n) ->
  (forall k, (1 <= k <= n)%nat -> Game.Time g - Z.of_nat k <> 0) ->
  game_run sort wfs (countdown n) g TimerAtCheck =
  (Game.set_Time g (Game.Time g - Z.of_nat n), TimerAtCheck,
   map (fun k => (Game.Host g, TickPacket (Game.Time g - Z.of_nat k))) (seq 1 n), false).
Proof. exact (countdown_ticks sort wfs g n). Qed.

(** X16: [getGameByPlayer] returns the first game (in creation order) holding a player on that connection and the first such player in its roster, and nil only when no player of any game uses it. *)
Lemma getGameByPlayer_first con games :
  match getGameByPlayer con games with
  | Some (gi, pi) =>
      exists g tm p, nth_error games gi = Some (g, tm) /\
        nth_error (Game.Players g) pi = Some p /\ Player.Connection p = con /\
        (forall k p', (k < pi)%nat -> nth_error (Game.Players g) k = Some p' ->
                      Player.Connection p' <> con) /\
        (forall j g' tm', (j < gi)%nat -> nth_error games j = Some (g', tm') ->
           forall p', In p' (Game.Players g') -> Player.Connection p' <> con)
  | None => forall g tm p, In (g, tm) games -> In p (Game.Players g) -> Player.Connection p <> con
  end.
Proof. exact (getGameByPlayer_spec con games). Qed.

(** ** Witnesses *)

Lemma NextQuestion_ends_witness :
  match NextQuestion (no_fail) (scoring_game 0) ([]) with
  | Ret _ g' o' =>
      Game.Ended g' = true /\ Game.State g' = EndState /\
      Game.CurrentQuestion g' = Game.CurrentQuestion (scoring_game 0) + 1 /\
      Game.Time g' = Game.Time (scoring_game 0) /\ Game.Players g' = Game.Players (scoring_game 0) /\
      exists sent, o' = ([]) ++ sent /\
        broadcast_of (no_fail) ([])
          (map (fun p => (Player.Connection p, ChangeGameStatePacket EndState)) (Game.Players (scoring_game 0))
           ++ [(Game.Host (scoring_game 0), ChangeGameStatePacket EndState)]) sent
  | Panic _ _ => False
  end.
Proof.
  pose proof (NextQuestion_ends (no_fail) (scoring_game 0) ([])
    ltac:(vm_compute; repeat split; congruence) ltac:(vm_compute; repeat split; congruence)) as H.
  exact H.
Defined.

Lemma NextQuestion_shows_witness :
  match NextQuestion (no_fail) (game0 one_question_quiz) ([]) with
  | Ret _ g' o' =>
      Game.CurrentQuestion g' = Game.CurrentQuestion (game0 one_question_quiz) + 1 /\
      Game.State g' = PlayState /\ Game.Time g' = QuizQuestion.Time (question 60) /\
      Game.Ended g' = Game.Ended (game0 one_question_quiz) /\
      Game.Players g' = map (fun p => Player.set_Answered p false) (Game.Players (game0 one_question_quiz)) /\
      getAnsweredPlayers g' = [] /\
      exists sent, o' = ([]) ++ sent ++ [(Game.Host (game0 one_question_quiz), QuestionShowPacket (question 60))] /\
        broadcast_of (no_fail) ([])
          (map (fun p => (Player.Connection p, ChangeGameStatePacket PlayState)) (Game.Players (game0 one_question_quiz))
           ++ [(Game.Host (game0 one_question_quiz), ChangeGameStatePacket PlayState)]) sent
  | Panic _ _ => False
  end.
Proof.
  pose proof (NextQuestion_shows (no_fail) (game0 one_question_quiz) ([]) (question 60)
    ltac:(vm_compute; repeat split; congruence) ltac:(vm_compute; reflexivity)) as H.
  exact H.
Defined.

Lemma StartOrSkip_lobby_starts_witness :
  match game_step (go_sort_slice) (no_fail) GStartOrSkip (game0 one_question_quiz) (TimerOff) with
  | GOk g' tm' o =>
      tm' = TimerAtCheck /\ Game.State g' = PlayState /\ Game.CurrentQuestion g' = 0 /\
      Game.Time g' = QuizQuestion.Time (question 60) /\ Game.Ended g' = Game.Ended (game0 one_question_quiz) /\
      exists sent1 sent2,
        o = sent1 ++ sent2 ++ [(Game.Host (game0 one_question_quiz), QuestionShowPacket (question 60))] /\
        broadcast_of (no_fail) []
          (map (fun p => (Player.Connection p, ChangeGameStatePacket PlayState)) (Game.Players (game0 one_question_quiz))
           ++ [(Game.Host (game0 one_question_quiz), ChangeGameStatePacket PlayState)]) sent1 /\
        broadcast_of (no_fail) sent1
          (map (fun p => (Player.Connection p, ChangeGameStatePacket PlayState)) (Game.Players (game0 one_question_quiz))
           ++ [(Game.Host (game0 one_question_quiz), ChangeGameStatePacket PlayState)]) sent2
  | GCrash _ _ => False
  end.
Proof.
  pose proof (StartOrSkip_lobby_starts (go_sort_slice) (no_fail) (game0 one_question_quiz) (TimerOff) (question 60)
    ltac:(vm_compute; reflexivity) ltac:(vm_compute; reflexivity) ltac:(vm_compute; reflexivity)) as H.
  exact H.
Defined.

Lemma StartOrSkip_lobby_empty_witness :
  let '(g', tm', o, crashed) := game_run (go_sort_slice) (never_fails) [GStartOrSkip; GTimer] (game0 (quiz_of [])) (TimerOff) in
  crashed = false /\ tm' = TimerDone /\
  Game.Ended g' = true /\ Game.State g' = EndState /\ Game.CurrentQuestion g' = 0 /\
  exists sent1 sent2,
    o = sent1 ++ sent2 /\
    broadcast_of ((never_fails) O) []
      (map (fun p => (Player.Connection p, ChangeGameStatePacket PlayState)) (Game.Players (game0 (quiz_of [])))
       ++ [(Game.Host (game0 (quiz_of [])), ChangeGameStatePacket PlayState)]) sent1 /\
    broadcast_of ((never_fails) O) sent1
      (map (fun p => (Player.Connection p, ChangeGameStatePacket EndState)) (Game.Players (game0 (quiz_of [])))
       ++ [(Game.Host (game0 (quiz_of [])), ChangeGameStatePacket EndState)]) sent2.
Proof.
  pose proof (StartOrSkip_lobby_empty (go_sort_slice) (never_fails) (game0 (quiz_of [])) (TimerOff)
    ltac:(vm_compute; reflexivity) ltac:(vm_compute; reflexivity) ltac:(vm_compute; reflexivity)) as H.
  exact H.
Defined.

Lemma Tick_sends_first_witness :
  match Tick (go_sort_slice) (no_fail) (scoring_game 0) ([]) with
  | Ret _ g' o' =>
      exists rest, o' = ([]) ++ (Game.Host (scoring_game 0), TickPacket (Game.Time (scoring_game 0) - 1)) :: rest /\
      (Game.Time (scoring_game 0) - 1 <> 0 \/ Game.State (scoring_game 0) = LobbyState \/ Game.State (scoring_game 0) = EndState ->
       g' = Game.set_Time (scoring_game 0) (Game.Time (scoring_game 0) - 1) /\ rest = [])
  | Panic _ o' => exists rest, o' = ([]) ++ (Game.Host (scoring_game 0), TickPacket (Game.Time (scoring_game 0) - 1)) :: rest
  end.
Proof.
  pose proof (Tick_sends_first (go_sort_slice) (no_fail) (scoring_game 0) ([])
    ltac:(vm_compute; repeat split; congruence)) as H.
  exact H.
Defined.

Lemma countdown_no_zero_witness :
  game_run (go_sort_slice) (never_fails) (countdown (3%nat)) (scoring_game 0) TimerAtCheck =
  (Game.set_Time (scoring_game 0) (Game.Time (scoring_game 0) - Z.of_nat (3%nat)), TimerAtCheck,
   map (fun k => (Game.Host (scoring_game 0), TickPacket (Game.Time (scoring_game 0) - Z.of_nat k))) (seq 1 (3%nat)), false).
Proof.
  pose proof (countdown_no_zero (go_sort_slice) (never_fails) (scoring_game 0) (3%nat)
    ltac:(vm_compute; reflexivity) ltac:(vm_compute; repeat split; congruence) ltac:(vm_compute; repeat split; congruence) ltac:(intros k Hk; cbn [scoring_game Game.Time]; lia)) as H.
  exact H.
Defined.

Lemma countdown_nonpositive_witness :
  game_run (go_sort_slice) (never_fails) (countdown (5%nat)) (Game.set_Time (scoring_game 0) 0) TimerAtCheck =
  (Game.set_Time (Game.set_Time (scoring_game 0) 0) (Game.Time (Game.set_Time (scoring_game 0) 0) - Z.of_nat (5%nat)), TimerAtCheck,
   map (fun k => (Game.Host (Game.set_Time (scoring_game 0) 0), TickPacket (Game.Time (Game.set_Time (scoring_game 0) 0) - Z.of_nat k))) (seq 1 (5%nat)), false).
Proof.
  pose proof (countdown_nonpositive (go_sort_slice) (never_fails) (Game.set_Time (scoring_game 0) 0) (5%nat)
    ltac:(vm_compute; reflexivity) ltac:(vm_compute; repeat split; congruence) ltac:(vm_compute; repeat split; congruence)) as H.
  exact H.
Defined.

Lemma question_times_out_witness :
  let reveals := map (fun p => (Player.Connection p,
                                PlayerRevealPacket (if Player.Answered p
                                                    then Player.LastAwardedPoints p else 0)))
                     (Game.Players (Game.set_Time (scoring_game 0) 3)) in
  let '(g', tm', o, crashed) := game_run (go_sort_slice) (never_fails) (countdown (S (2%nat))) (Game.set_Time (scoring_game 0) 3) TimerAtCheck in
  crashed = false /\ tm' = TimerAtCheck /\ Game.State g' = RevealState /\ Game.Time g' = 5 /\
  Game.CurrentQuestion g' = Game.CurrentQuestion (Game.set_Time (scoring_game 0) 3) /\
  exists sent,
    o = map (fun k => (Game.Host (Game.set_Time (scoring_game 0) 3), TickPacket (Game.Time (Game.set_Time (scoring_game 0) 3) - Z.of_nat k))) (seq 1 (S (2%nat)))
        ++ reveals ++ sent /\
    broadcast_of ((never_fails) (2 * (2%nat) + 1)%nat) ([(Game.Host (Game.set_Time (scoring_game 0) 3), TickPacket 0)] ++ reveals)
      (map (fun p => (Player.Connection p, ChangeGameStatePacket RevealState)) (Game.Players (Game.set_Time (scoring_game 0) 3))
       ++ [(Game.Host (Game.set_Time (scoring_game 0) 3), ChangeGameStatePacket RevealState)]) sent.
Proof.
  pose proof (question_times_out (go_sort_slice) (never_fails) (Game.set_Time (scoring_game 0) 3) (2%nat)
    ltac:(vm_compute; reflexivity) ltac:(vm_compute; reflexivity) ltac:(vm_compute; reflexivity) ltac:(vm_compute; repeat split; congruence)) as H.
  exact H.
Defined.

Lemma isCorrectChoice_bounds_witness :
  isCorrectChoice (5) (scoring_game 0) ([]) =
  Ret (match index (QuizQuestion.Choices (question 60)) (5) with
       | Some c => QuizChoice.Correct c
       | None => false
       end) (scoring_game 0) ([]) /\
  ((5) < 0 \/ Z.of_nat (List.length (QuizQuestion.Choices (question 60))) <= (5) ->
   isCorrectChoice (5) (scoring_game 0) ([]) = Ret false (scoring_game 0) ([])).
Proof.
  pose proof (isCorrectChoice_bounds (5) (scoring_game 0) ([]) (question 60)
    ltac:(vm_compute; reflexivity)) as H.
  exact H.
Defined.

Lemma getPointsReward_bounds_witness :
  getPointsReward (scoring_game 2) ([]) = Ret (points_reward (scoring_game 2)) (scoring_game 2) ([]) /\
  1000 + Game.Time (scoring_game 2) * 16 <= points_reward (scoring_game 2) <= 5000 + Game.Time (scoring_game 2) * 16 /\
  (getAnsweredPlayers (scoring_game 2) = [] -> points_reward (scoring_game 2) = 5000 + Game.Time (scoring_game 2) * 16) /\
  ((4 <= List.length (getAnsweredPlayers (scoring_game 2)))%nat -> points_reward (scoring_game 2) = 1000 + Game.Time (scoring_game 2) * 16).
Proof.
  pose proof (getPointsReward_bounds (scoring_game 2) ([])
    ltac:(vm_compute; repeat split; congruence)) as H.
  exact H.
Defined.

Lemma OnPlayerAnswer_auto_reveal_witness :
  match OnPlayerAnswer (no_fail) (0) (5%nat) (scoring_game 5) ([]) with
  | Ret _ g' o' =>
      if forallb Player.Answered (Game.Players g')
      then Game.State g' = RevealState /\ Game.Time g' = 5
      else Game.State g' = Game.State (scoring_game 5) /\ Game.Time g' = Game.Time (scoring_game 5) /\ o' = ([])
  | Panic _ _ => False
  end.
Proof.
  pose proof (OnPlayerAnswer_auto_reveal (no_fail) (0) (5%nat) (scoring_game 5) ([]) (question 60)
    ltac:(vm_compute; reflexivity)) as H.
  exact H.
Defined.

Lemma HostGame_appends_witness :
  match net_step (go_sort_slice) (json_ref) (fetch_one one_question_quiz) (no_fail) (EvMessage (0%nat) (msg_host "q1") (1%nat) ("123456"%string)) ([] : list (Game.t * Timer)) with
  | NOk games' o =>
      games' = ([] : list (Game.t * Timer)) ++ [(newGame (1%nat) ("123456"%string) (one_question_quiz) (0%nat), TimerOff)] /\
      o = [((0%nat), HostGamePacket ("123456"%string)); ((0%nat), ChangeGameStatePacket LobbyState)] /\
      getGameByCode ("123456"%string) games' =
        match getGameByCode ("123456"%string) ([] : list (Game.t * Timer)) with
        | Some gi => Some gi
        | None => Some (List.length ([] : list (Game.t * Timer)))
        end /\
      getGameByHost (0%nat) games' =
        match getGameByHost (0%nat) ([] : list (Game.t * Timer)) with
        | Some gi => Some gi
        | None => Some (List.length ([] : list (Game.t * Timer)))
        end
  | NCrash _ _ => False
  end.
Proof.
  pose proof (HostGame_appends (go_sort_slice) (json_ref) (fetch_one one_question_quiz) (no_fail) (0%nat) (msg_host "q1") (1%nat) ("123456"%string) ([] : list (Game.t * Timer)) ("q1"%string) (one_question_quiz)
    ltac:(vm_compute; reflexivity) ltac:(vm_compute; reflexivity)) as H.
  exact H.
Defined.

Lemma message_without_target_ignored_witness :
  net_step (go_sort_slice) (json_ref) (fetch_one one_question_quiz) (no_fail) (EvMessage (0%nat) (msg_start) (1%nat) ("123456"%string)) ([] : list (Game.t * Timer)) = NOk ([] : list (Game.t * Timer)) [].
Proof.
  pose proof (message_without_target_ignored (go_sort_slice) (json_ref) (fetch_one one_question_quiz) (no_fail) (0%nat) (msg_start) (1%nat) ("123456"%string) ([] : list (Game.t * Timer))
    ltac:(right; right; left; split; vm_compute; reflexivity)) as H.
  exact H.
Defined.

Lemma Connect_joins_witness :
  net_step (go_sort_slice) (json_ref) (fetch_one one_question_quiz) (no_fail) (EvMessage (10%nat) (msg_join "000000" "a") (1%nat) ("123456"%string)) ([(game0 one_question_quiz, TimerOff)]) =
  NOk (update_nth (0%nat) (fun _ => (Game.set_Players (game0 one_question_quiz)
                                  (Game.Players (game0 one_question_quiz) ++ [Player.mk (1%nat) ("a"%string) (10%nat) 0 0 false]), (TimerOff)))
                  ([(game0 one_question_quiz, TimerOff)]))
      [((10%nat), ChangeGameStatePacket (Game.State (game0 one_question_quiz)));
       (Game.Host (game0 one_question_quiz), PlayerJoinPacket (Player.mk (1%nat) ("a"%string) (10%nat) 0 0 false))].
Proof.
  pose proof (Connect_joins (go_sort_slice) (json_ref) (fetch_one one_question_quiz) (no_fail) (10%nat) (msg_join "000000" "a") (1%nat) ("123456"%string) ([(game0 one_question_quiz, TimerOff)]) ("000000"%string) ("a"%string) (0%nat) (game0 one_question_quiz) (TimerOff)
    ltac:(vm_compute; reflexivity) ltac:(vm_compute; reflexivity) ltac:(vm_compute; reflexivity)) as H.
  exact H.
Defined.

Lemma generateCode_six_digits_witness :
  String.length (generateCode (23456)) = 6%nat /\
  (forall i c, String.get i (generateCode (23456)) = Some c -> (48 <= nat_of_ascii c <= 57)%nat) /\
  decimal_value (generateCode (23456)) 0 = 100000 + (23456).
Proof.
  pose proof (generateCode_six_digits (23456)
    ltac:(lia)) as H.
  exact H.
Defined.
